(** * futurecoder, backend/main/views.py: the API behind the tutorial

    A shallow embedding of [api_view] and of the methods of class [API]
    (run_code, load_data, set_developer_mode, current_state, move_step,
    set_page, get_solution, submit_feedback), followed by the properties
    of the progress state machine, the submission pipeline, the puzzle
    generator and the dispatch boundary.

    Python values that arrive from [json.loads] are modelled by [pyval];
    exceptions by [exn]; every method is a computation in the monad [M],
    which threads the state of the request ([World]) and either returns a
    value or raises.  A JSON real is a binary64 float, given by its sign,
    mantissa and exponent ([spec_float]).  A Python [str] is a [string]
    whose characters are the code points below 256. *)

From Stdlib Require Import ZArith List Lia Permutation Ascii String SpecFloat.
From stdpp Require Import base option list gmap strings fin_maps.

Set Warnings "-register-all".

Open Scope string_scope.
Open Scope Z_scope.

(** ** Python values and exceptions *)

(** A value produced by [json.loads] or returned to [JsonResponse]. *)
Inductive pyval : Type :=
  | PNone
  | PBool (b : bool)
  | PInt (z : Z)
  | PFloat (f : spec_float)
  | PStr (s : string)
  | PList (l : list pyval)
  | PDict (d : list (string * pyval)).

(** An object that a call made by api_view can return: a value that json
    encodes, or an instance of a class for which json has no encoding (an
    instance of [API], say). *)
Inductive pyobject : Type :=
  | JsonValue (v : pyval)
  | Instance (class_name : string).

(** The exception classes the module can raise.  [Failure] stands for an
    exception raised by an external collaborator (database, execution
    service, trace store, HTTP client); it derives from [Exception] like
    all the others. *)
Inductive exn : Type :=
  | IndexError
  | KeyError (k : string)
  | TypeError
  | ValueError
  | AttributeError (name : string)
  | AssertionError
  | UnboundLocalError (name : string)
  | NotImplementedError
  | Failure (what : string).

Inductive outcome (A : Type) : Type :=
  | Return (a : A)
  | Raise (e : exn).
Arguments Return {A} a.
Arguments Raise {A} e.

(** Truth value of a Python object, as tested by [if x:]. *)
Definition truthy (v : pyval) : bool :=
  match v with
  | PNone => false
  | PBool b => b
  | PInt z => negb (z =? 0)
  | PFloat f => match f with S754_zero _ => false | _ => true end
  | PStr s => negb (String.eqb s "")
  | PList l => match l with [] => false | _ => true end
  | PDict d => match d with [] => false | _ => true end
  end.

(** [bool] is a subclass of [int]: both are accepted where an integer is
    needed (indices, arithmetic, comparisons with an [int]).  A float is
    not: it is no index, even when its value is a whole number. *)
Definition as_int (v : pyval) : option Z :=
  match v with
  | PInt z => Some z
  | PBool b => Some (Z.b2z b)
  | _ => None
  end.

(** [l[i]] on a Python list with an integer index: a negative index counts
    from the end, and an index outside [-len, len) raises IndexError. *)
Definition list_getitem_int {A : Type} (l : list A) (i : Z) : outcome A :=
  let n := Z.of_nat (length l) in
  let j := if i <? 0 then i + n else i in
  if (0 <=? j) && (j <? n)
  then match l !! Z.to_nat j with
       | Some x => Return x
       | None => Raise IndexError
       end
  else Raise IndexError.

(** [l[v]] for an arbitrary index object: anything but an integer is a
    TypeError. *)
Definition list_getitem {A : Type} (l : list A) (v : pyval) : outcome A :=
  match as_int v with
  | Some i => list_getitem_int l i
  | None => Raise TypeError
  end.

(** [d[k]] on a dict kept in insertion order. *)
Fixpoint dict_getitem {A : Type} (d : list (string * A)) (k : string) : outcome A :=
  match d with
  | [] => Raise (KeyError k)
  | (k', v) :: d' => if String.eqb k' k then Return v else dict_getitem d' k
  end.

(** [l.index(x)]: position of the first occurrence, ValueError if absent. *)
Fixpoint list_index (l : list string) (x : string) : outcome Z :=
  match l with
  | [] => Raise ValueError
  | y :: l' =>
      if String.eqb y x then Return 0
      else match list_index l' x with
           | Return i => Return (i + 1)
           | Raise e => Raise e
           end
  end.

(** [0 <= f] for a float: the comparison of an [int] with a float is
    exact, and false for nan. *)
Definition float_nonnegative (f : spec_float) : bool :=
  match f with
  | S754_zero _ => true
  | S754_infinity s => negb s
  | S754_nan => false
  | S754_finite s _ _ => negb s
  end.

(** [f < n] for a float and an [int]: the finite float of sign [s],
    mantissa [m] and exponent [e] is the number (-1)^s * m * 2^e, which is
    compared exactly. *)
Definition float_lt_int (f : spec_float) (n : Z) : bool :=
  match f with
  | S754_zero _ => 0 <? n
  | S754_infinity s => s
  | S754_nan => false
  | S754_finite s m e =>
      let v := if s then Z.neg m else Z.pos m in
      if 0 <=? e then v * 2 ^ e <? n else v <? n * 2 ^ (- e)
  end.

(** [0 <= v < n], the chained comparison of [move_step]: the second
    comparison is made only when the first holds; comparing an [int] with
    something that is no number raises TypeError. *)
Definition in_range (v : pyval) (n : nat) : outcome bool :=
  match v with
  | PFloat f => Return (float_nonnegative f && float_lt_int f (Z.of_nat n))
  | _ =>
      match as_int v with
      | Some i => Return ((0 <=? i) && (i <? Z.of_nat n))
      | None => Raise TypeError
      end
  end.

(** [v + 1]; with a float the sum is a float, rounded as binary64. *)
Definition add_one (v : pyval) : outcome pyval :=
  match v with
  | PFloat f => Return (PFloat (SFadd 53 1024 f (SFone 53 1024)))
  | _ =>
      match as_int v with
      | Some i => Return (PInt (i + 1))
      | None => Raise TypeError
      end
  end.

(** ** The catalog (main.text) *)

(** A step class: an [ExerciseStep] carries a reference solution, any
    other step a literal program. *)
Inductive Step : Type :=
  | ExerciseStep (solution : string)
  | PlainStep (program : string).

Record Page : Type := {
  slug : string;
  title : string;
  index : Z;
  step_names : list string;
  step_dicts : pyval;
  page_attrs : list (string * Step)   (* getattr(page, step_name) *)
}.

(** The catalog is imported from main.text, which is not part of the
    sources at hand, so it is a parameter: [pages] is the dict of pages in
    insertion order. *)
Class Catalog : Type := { pages : list (string * Page) }.

(** Modelled from the spec: [page_slugs_list] (defined in main.text, not
    under src/).  Catalog order maps a page position to a slug and back:
    the list of slugs is the list of keys of [pages], in catalog order. *)
Definition page_slugs_list `{Catalog} : list string := map fst pages.

(** ** The learner and the state of a request *)

Record User : Type := {
  uid : Z;
  email : string;
  developer_mode : pyval;
  page_slug : string;
  pages_progress : gmap string string   (* page slug -> step_name *)
}.

(** [request.user]: the logged-in learner, or Django's AnonymousUser. *)
Inductive request_user : Type :=
  | AnonymousUser
  | Learner (u : User).

(** One output fragment of the execution service. *)
Definition output_part (text color : string) : pyval :=
  PDict [("text", PStr text); ("color", PStr color)].

(** Modelled from the spec: the [ExecutionResult] returned by
    [worker_result] (main.workers.master, not under src/); a well-formed
    result has all the keys that run_code reads. *)
Record ExecutionResult : Type := {
  r_output : pyval;
  r_error : pyval;
  r_passed : bool;
  r_awaiting_input : bool;
  r_output_parts : list pyval;
  r_message : string;
  r_birdseye_objects : pyval
}.

(** The request sent to the execution service, also the row of CodeEntry. *)
Record entry_dict : Type := {
  e_input : pyval;
  e_source : pyval;
  e_page_slug : string;
  e_step_name : string;
  e_user_id : option Z
}.

(** The external collaborators.  [Ext] is their state (entries table,
    trace store, issue tracker, random generator); each operation may
    change it and may raise. *)
Class Collaborators : Type := {
  Ext : Type;
  SAVE_CODE_ENTRIES : bool;
  worker_result : entry_dict -> Ext -> outcome ExecutionResult * Ext;
  CodeEntry_create : entry_dict -> Ext -> outcome Z * Ext;
  CodeEntry_save_output : Z -> pyval -> Ext -> outcome unit * Ext;
  (* lines 103-120 of run_code: registers the functions and calls of a
     trace with the trace store and gives the id of the last call *)
  birdseye_register : pyval -> Ext -> outcome string * Ext;
  markdown : string -> string;
  clean_program : string -> string;
  (* generate_tokens followed by Untokenizer.untokenize, then .tokens *)
  tokenize : string -> outcome (list string);
  (* one draw of the global random generator *)
  random_draw : Ext -> nat * Ext;
  get_user_agent : string;
  json_dumps : pyval -> string;
  py_str : pyval -> string;
  requests_post_issue : pyval -> string -> pyval -> Ext -> outcome Z * Ext;
  GITHUB_TOKEN : string;
  body_decode : list N -> outcome string;
  json_loads : string -> outcome pyval;
  format_exc : exn -> string;
  (* the names an instance of API gets from Python's [object] and from its
     class object (__repr__, __dict__, __doc__, ...), __class__ apart *)
  object_attributes : list string;
  (* lines 41-49 of api_view for an attribute that is no code of this
     module (the request, its user, an attribute inherited from [object]):
     get_type_hints and the call with the decoded body *)
  foreign_call : string -> pyval -> Ext -> outcome pyobject * Ext
}.

Record World `{Collaborators} : Type := {
  user : request_user;          (* self.request.user, in memory *)
  users_table : gmap Z User;    (* the rows written by user.save() *)
  sentry : list exn;            (* what capture_exception reported *)
  warnings : list string;       (* arguments log.warning complained about *)
  ext : Ext
}.

(** ** The monad of methods: state of the request, plus exceptions *)

Definition M `{Collaborators} (A : Type) : Type := World -> outcome A * World.

Definition ret `{Collaborators} {A : Type} (a : A) : M A := fun w => (Return a, w).

Definition raise `{Collaborators} {A : Type} (e : exn) : M A := fun w => (Raise e, w).

Definition bind `{Collaborators} {A B : Type} (m : M A) (k : A -> M B) : M B :=
  fun w =>
    match m w with
    | (Return a, w') => k a w'
    | (Raise e, w') => (Raise e, w')
    end.

Notation "'let!' x := m 'in' k" := (bind m (fun x => k))
  (at level 10, x name, m at level 100, k at level 200).
Notation "m ;; k" := (bind m (fun _ => k))
  (at level 100, k at level 200, right associativity).

(** An exception-or-value computed without touching the state. *)
Definition lift `{Collaborators} {A : Type} (o : outcome A) : M A := fun w => (o, w).

(** A call to a collaborator: only [ext] changes. *)
Definition call_ext `{Collaborators} {A : Type} (f : Ext -> outcome A * Ext) : M A :=
  fun w =>
    let (o, x) := f (ext w) in
    (o, {| user := user w; users_table := users_table w; sentry := sentry w;
           warnings := warnings w; ext := x |}).

Definition set_user `{Collaborators} (u : request_user) : M unit :=
  fun w => (Return tt,
            {| user := u; users_table := users_table w; sentry := sentry w;
               warnings := warnings w; ext := ext w |}).

(** [self.user] when an attribute of the model is read: AnonymousUser has
    neither [pages_progress] nor [email]. *)
Definition self_user `{Collaborators} (attr : string) : M User :=
  fun w =>
    match user w with
    | Learner u => (Return u, w)
    | AnonymousUser => (Raise (AttributeError attr), w)
    end.

(** [self.user.save()]: writes the row of the learner; AnonymousUser.save
    raises NotImplementedError.  The row is written as it stands in
    memory: what the model (main.models, not under src/) does with a value
    that is not valid for a field is not represented, so the statements
    below store only valid values: a step name of the page, a slug of the
    catalog, a boolean. *)
Definition user_save `{Collaborators} : M unit :=
  fun w =>
    match user w with
    | Learner u =>
        (Return tt,
         {| user := user w; users_table := <[uid u := u]> (users_table w);
            sentry := sentry w; warnings := warnings w; ext := ext w |})
    | AnonymousUser => (Raise NotImplementedError, w)
    end.

(** ** Progress state machine *)

(** Modelled from the spec: the subscript [pages_progress[page_slug]] of
    [User.pages_progress] followed by ["step_name"] (the property is
    defined in main.models, not under src/).  An entry exists only for
    the pages the learner has reached; a page without an entry reads as
    not started, that is, at the first step of the page (index 0). *)
Definition progress_step_name `{Catalog} (pp : gmap string string) (page_slug : string)
    : outcome string :=
  match pp !! page_slug with
  | Some name => Return name
  | None =>
      match dict_getitem pages page_slug with
      | Return page => list_getitem_int (step_names page) 0
      | Raise e => Raise e
      end
  end.

(** The list comprehension of current_state, over [pages.items()]. *)
Fixpoint progress_indices `{Catalog} (pp : gmap string string) (items : list (string * Page))
    : outcome (list Z) :=
  match items with
  | [] => Return []
  | (page_slug, page) :: rest =>
      match progress_step_name pp page_slug with
      | Raise e => Raise e
      | Return name =>
          match list_index (step_names page) name with
          | Raise e => Raise e
          | Return i =>
              match progress_indices pp rest with
              | Raise e => Raise e
              | Return rest_indices => Return (i :: rest_indices)
              end
          end
      end
  end.

Definition state_dict (indices : list Z) : pyval :=
  PDict [("pages_progress", PList (map PInt indices))].

(** API.current_state *)
Definition current_state `{Catalog} `{Collaborators} : M pyval :=
  let! u := self_user "pages_progress" in
  let! indices := lift (progress_indices (pages_progress u) pages) in
  ret (state_dict indices).

Definition set_step_name (u : User) (key new_step_name : string) : User :=
  {| uid := uid u; email := email u; developer_mode := developer_mode u;
     page_slug := page_slug u;
     pages_progress := <[key := new_step_name]> (pages_progress u) |}.

(** API.move_step *)
Definition move_step `{Catalog} `{Collaborators} (page_index step_index : pyval) : M pyval :=
  let! page_slug := lift (list_getitem page_slugs_list page_index) in
  let! page := lift (dict_getitem pages page_slug) in
  let step_names := step_names page in
  let! ok := lift (in_range step_index (length step_names)) in
  (if ok : bool then
     let! new_step_name := lift (list_getitem step_names step_index) in
     let! u := self_user "pages_progress" in
     set_user (Learner (set_step_name u page_slug new_step_name)) ;;
     user_save
   else ret tt) ;;
  current_state.

Definition set_page_slug (u : User) (s : string) : User :=
  {| uid := uid u; email := email u; developer_mode := developer_mode u;
     page_slug := s; pages_progress := pages_progress u |}.

(** [self.user.attr = v]: assigning an attribute also succeeds on
    AnonymousUser (whose save then raises). *)
Definition update_user `{Collaborators} (f : User -> User) : M unit :=
  fun w =>
    match user w with
    | Learner u => set_user (Learner (f u)) w
    | AnonymousUser => (Return tt, w)
    end.

(** API.set_page *)
Definition set_page `{Catalog} `{Collaborators} (index : pyval) : M pyval :=
  let! s := lift (list_getitem page_slugs_list index) in
  update_user (fun u => set_page_slug u s) ;;
  user_save ;;
  ret PNone.

(** API.set_developer_mode *)
Definition set_developer_mode `{Collaborators} (value : pyval) : M pyval :=
  update_user (fun u =>
    {| uid := uid u; email := email u; developer_mode := value;
       page_slug := page_slug u; pages_progress := pages_progress u |}) ;;
  user_save ;;
  ret PNone.

(** ** Code-submission pipeline *)

Definition prompt_part : pyval := output_part ">>> " "white".

(** API.run_code *)
Definition run_code `{Catalog} `{Collaborators}
    (code source page_index step_index : pyval) : M pyval :=
  let! page_slug := lift (list_getitem page_slugs_list page_index) in
  let! page := lift (dict_getitem pages page_slug) in
  let! step_name := lift (list_getitem (step_names page) step_index) in
  let! user_id := (fun w => (Return match user w with
                                    | Learner u => Some (uid u)
                                    | AnonymousUser => None
                                    end, w)) in
  let entry_dict :=
    {| e_input := code; e_source := source; e_page_slug := page_slug;
       e_step_name := step_name; e_user_id := user_id |} in
  let! entry :=
    (if SAVE_CODE_ENTRIES
     then let! id := call_ext (CodeEntry_create entry_dict) in ret (Some id)
     else ret None) in
  let! result := call_ext (worker_result entry_dict) in
  (match entry with
   | Some id => call_ext (CodeEntry_save_output id (r_output result))
   | None => ret tt
   end) ;;
  if truthy (r_error result) then ret (PDict [("error", r_error result)])
  else
    let passed := r_passed result in
    (if passed
     then let! next := lift (add_one step_index) in
          let! _ := move_step page_index next in ret tt
     else ret tt) ;;
    let output_parts :=
      if negb (r_awaiting_input result)
      then (r_output_parts result ++ [prompt_part])%list
      else r_output_parts result in
    let! birdseye_url :=
      (if truthy (r_birdseye_objects result)
       then let! call_id := call_ext (birdseye_register (r_birdseye_objects result)) in
            ret (PStr ("/birdseye/ipython_call/" ++ call_id))
       else ret PNone) in
    let! state := current_state in
    ret (PDict [("result", PList output_parts);
                ("message", PStr (markdown (r_message result)));
                ("state", state);
                ("birdseye_url", birdseye_url);
                ("passed", PBool passed)]).

(** API.load_data *)
Definition load_data `{Catalog} `{Collaborators} : M pyval :=
  fun w =>
    match user w with
    | AnonymousUser => (Return (PDict []), w)
    | Learner user =>
        (let! state := current_state in
         let! page := lift (dict_getitem pages (page_slug user)) in
         ret (PDict [("pages",
                      PList (map (fun page : Page =>
                                    PDict [("slug", PStr (slug page));
                                           ("title", PStr (title page));
                                           ("index", PInt (index page));
                                           ("steps", step_dicts page)])
                                 (map snd pages)));
                     ("state", state);
                     ("user", PDict [("email", PStr (email user));
                                     ("developerMode", developer_mode user)]);
                     ("page_index", PInt (index page))])) w
    end.

(** ** Solution-puzzle generator *)

(** [str.isspace] on one character, for the code points below 256. *)
Definition char_isspace (c : Ascii.ascii) : bool :=
  let n := Ascii.nat_of_ascii c in
  ((9 <=? n) && (n <=? 13) || (28 <=? n) && (n <=? 32) || (n =? 133) || (n =? 160))%nat.

Fixpoint all_space (s : string) : bool :=
  match s with
  | EmptyString => true
  | String c s' => char_isspace c && all_space s'
  end.

(** [token.isspace()]: only whitespace characters, and at least one. *)
Definition isspace (s : string) : bool :=
  match s with
  | EmptyString => false
  | _ => all_space s
  end.

(** The loop over [enumerate(tokens)], started at position [i]. *)
Fixpoint mask_loop (i : nat) (tokens : list string)
    (masked_indices : list nat) (mask : list bool) : list nat * list bool :=
  match tokens with
  | [] => (masked_indices, mask)
  | token :: rest =>
      if negb (isspace token)
      then mask_loop (S i) rest (masked_indices ++ [i])%list (<[i := true]> mask)
      else mask_loop (S i) rest masked_indices mask
  end.

(** [x[i], x[j] = x[j], x[i]] *)
Definition swap (x : list nat) (i j : nat) : list nat :=
  match x !! i, x !! j with
  | Some a, Some b => <[j := a]> (<[i := b]> x)
  | _, _ => x
  end.

(** [random.shuffle] of the Python library:
    for i in reversed(range(1, len(x))): j = randbelow(i + 1); swap. *)
Fixpoint shuffle_from `{Collaborators} (i : nat) (x : list nat) (g : Ext) : list nat * Ext :=
  match i with
  | O => (x, g)
  | S i' =>
      let (r, g') := random_draw g in
      shuffle_from i' (swap x i (r mod (i + 1))%nat) g'
  end.

Definition shuffle `{Collaborators} (x : list nat) : M (list nat) :=
  call_ext (fun g => let (y, g') := shuffle_from (length x - 1) x g in (Return y, g')).

Definition getattr_step (page : Page) (name : string) : outcome Step :=
  match dict_getitem (page_attrs page) name with
  | Return s => Return s
  | Raise _ => Raise (AttributeError name)
  end.

Definition puzzle_dict (tokens : list string) (masked_indices : list nat) (mask : list bool)
    : pyval :=
  PDict [("tokens", PList (map PStr tokens));
         ("maskedIndices", PList (map (fun i => PInt (Z.of_nat i)) masked_indices));
         ("mask", PList (map PBool mask))].

(** API.get_solution *)
Definition get_solution `{Catalog} `{Collaborators} (page_index step_index : pyval) : M pyval :=
  let! page_slug := lift (list_getitem page_slugs_list page_index) in
  let! page := lift (dict_getitem pages page_slug) in
  let! step_name := lift (list_getitem (step_names page) step_index) in
  let! step := lift (getattr_step page step_name) in
  let program :=
    match step with
    | ExerciseStep solution => clean_program solution
    | PlainStep program => program
    end in
  let! tokens := lift (tokenize program) in
  let (masked_indices, mask) :=
    mask_loop 0 tokens [] (replicate (length tokens) false) in
  let! masked_indices := shuffle masked_indices in
  ret (puzzle_dict tokens masked_indices mask).

(** ** Feedback *)

(** API.submit_feedback *)
Definition submit_feedback `{Collaborators} (title description state : pyval) : M pyval :=
  let! u := self_user "email" in
  let body :=
    "
**User Issue**
Email: " ++ email u ++ "
User Agent: " ++ get_user_agent ++ "

" ++ py_str description ++ "

<details>

<summary>Redux state</summary>

<p>

```json
" ++ json_dumps state ++ "
```

</p>
</details>
        " in
  let! status_code :=
    call_ext (requests_post_issue title body (PStr ("token " ++ GITHUB_TOKEN))) in
  if status_code =? 201 then ret PNone else raise AssertionError.

(** ** The dispatch boundary *)

(** The operations of the API: the methods defined in the body of class
    [API], lines 70-236. *)
Inductive method : Type :=
  | m_run_code
  | m_load_data
  | m_set_developer_mode
  | m_current_state
  | m_move_step
  | m_set_page
  | m_get_solution
  | m_submit_feedback.

(** What an attribute of an instance of [API] can be: one of the
    operations, bound to the instance; its constructor [__init__]; its
    class, for [__class__]; or an object that is no code of this module:
    the request stored by [__init__], the value of the property [user], an
    attribute inherited from [object]. *)
Inductive attribute : Type :=
  | attr_method (m : method)
  | attr_init
  | attr_class
  | attr_foreign (name : string).

(** [getattr(API(request), method_name)]: any attribute of the instance is
    found, not only the operations; a name that is no attribute raises
    AttributeError. *)
Definition getattr_API `{Collaborators} (method_name : string) : outcome attribute :=
  if String.eqb method_name "run_code" then Return (attr_method m_run_code)
  else if String.eqb method_name "load_data" then Return (attr_method m_load_data)
  else if String.eqb method_name "set_developer_mode"
  then Return (attr_method m_set_developer_mode)
  else if String.eqb method_name "current_state" then Return (attr_method m_current_state)
  else if String.eqb method_name "move_step" then Return (attr_method m_move_step)
  else if String.eqb method_name "set_page" then Return (attr_method m_set_page)
  else if String.eqb method_name "get_solution" then Return (attr_method m_get_solution)
  else if String.eqb method_name "submit_feedback"
  then Return (attr_method m_submit_feedback)
  else if String.eqb method_name "__init__" then Return attr_init
  else if String.eqb method_name "__class__" then Return attr_class
  else if String.eqb method_name "request" then Return (attr_foreign method_name)
  else if String.eqb method_name "user" then Return (attr_foreign method_name)
  else if existsb (String.eqb method_name) object_attributes
  then Return (attr_foreign method_name)
  else Raise (AttributeError method_name).

(** The parameters of each method, after [self]. *)
Definition parameters (m : method) : list string :=
  match m with
  | m_run_code => ["code"; "source"; "page_index"; "step_index"]
  | m_load_data => []
  | m_set_developer_mode => ["value"]
  | m_current_state => []
  | m_move_step => ["page_index"; "step_index"]
  | m_set_page => ["index"]
  | m_get_solution => ["page_index"; "step_index"]
  | m_submit_feedback => ["title"; "description"; "state"]
  end.

Inductive hint : Type := hint_int | hint_bool.

(** [get_type_hints(method)], without the entry for 'return'. *)
Definition type_hints (m : method) : list (string * hint) :=
  match m with
  | m_set_developer_mode => [("value", hint_bool)]
  | m_move_step => [("step_index", hint_int)]
  | m_get_solution => [("step_index", hint_int)]
  | _ => []
  end.

Definition isinstance (v : pyval) (h : hint) : bool :=
  match h, v with
  | hint_int, PInt _ => true
  | hint_int, PBool _ => true
  | hint_bool, PBool _ => true
  | _, _ => false
  end.

(** [args[arg_name]] with a string key: only a dict can answer. *)
Definition subscript_str (args : pyval) (arg_name : string) : outcome pyval :=
  match args with
  | PDict d => dict_getitem d arg_name
  | _ => Raise TypeError
  end.

Definition log_warning `{Collaborators} (arg_name : string) : M unit :=
  fun w => (Return tt,
            {| user := user w; users_table := users_table w; sentry := sentry w;
               warnings := (warnings w ++ [arg_name])%list; ext := ext w |}).

(** The loop of [api_view] over the type hints: a mismatch is only logged. *)
Fixpoint check_hints `{Collaborators} (hints : list (string * hint)) (args : pyval) : M unit :=
  match hints with
  | [] => ret tt
  | (arg_name, h) :: rest =>
      let! arg := lift (subscript_str args arg_name) in
      (if isinstance arg h then ret tt else log_warning arg_name) ;;
      check_hints rest args
  end.

Fixpoint lookup_all (d : list (string * pyval)) (names : list string) : outcome (list pyval) :=
  match names with
  | [] => Return []
  | n :: rest =>
      match dict_getitem d n, lookup_all d rest with
      | Return v, Return vs => Return (v :: vs)
      | _, _ => Raise TypeError
      end
  end.

(** Binding of [**args] to the parameters: [args] must be a mapping, a
    keyword that is no parameter and a parameter without a value are both a
    TypeError. *)
Definition bind_args (params : list string) (args : pyval) : outcome (list pyval) :=
  match args with
  | PDict d =>
      if forallb (fun k => existsb (String.eqb k) params) (map fst d)
      then lookup_all d params
      else Raise TypeError
  | _ => Raise TypeError
  end.

(** The call of the method with the keyword arguments of [args]. *)
Definition call_method `{Catalog} `{Collaborators} (m : method) (args : pyval) : M pyval :=
  let! vals := lift (bind_args (parameters m) args) in
  match m, vals with
  | m_run_code, [code; source; page_index; step_index] =>
      run_code code source page_index step_index
  | m_load_data, [] => load_data
  | m_set_developer_mode, [value] => set_developer_mode value
  | m_current_state, [] => current_state
  | m_move_step, [page_index; step_index] => move_step page_index step_index
  | m_set_page, [index] => set_page index
  | m_get_solution, [page_index; step_index] => get_solution page_index step_index
  | m_submit_feedback, [title; description; state] =>
      submit_feedback title description state
  | _, _ => raise TypeError
  end.

(** [try: body  except Exception: handler]; every class of [exn] derives
    from [Exception]. *)
Definition try_except `{Collaborators} {A : Type} (body : M A) (handler : exn -> M A) : M A :=
  fun w =>
    match body w with
    | (Return a, w') => (Return a, w')
    | (Raise e, w') => handler e w'
    end.

(** sentry_sdk.capture_exception *)
Definition capture_exception `{Collaborators} (e : exn) : M unit :=
  fun w => (Return tt,
            {| user := user w; users_table := users_table w;
               sentry := (sentry w ++ [e])%list;
               warnings := warnings w; ext := ext w |}).

Definition is_dict (v : pyval) : bool :=
  match v with PDict _ => true | _ => false end.

(** Lines 41-49 of api_view: the loop over the type hints of [method] and
    the call of [method] with the keyword arguments of [args].
    [__init__] and the class have one
    parameter, [request], and no type hint; calling the class gives a new
    instance of [API]. *)
Definition call_attribute `{Catalog} `{Collaborators} (method : attribute) (args : pyval)
    : M pyobject :=
  match method with
  | attr_method m =>
      check_hints (type_hints m) args ;;
      let! result := call_method m args in
      ret (JsonValue result)
  | attr_init =>
      let! _ := lift (bind_args ["request"] args) in
      ret (JsonValue PNone)
  | attr_class =>
      let! _ := lift (bind_args ["request"] args) in
      ret (Instance "API")
  | attr_foreign name => call_ext (foreign_call name args)
  end.

(** Lines 50-51: a result that is a dict is kept, any other is wrapped as
    {'result': result}.  The dict is given by its items. *)
Definition as_result_dict (result : pyobject) : list (string * pyobject) :=
  match result with
  | JsonValue (PDict d) => map (fun kv => (fst kv, JsonValue (snd kv))) d
  | _ => [("result", result)]
  end.

(** The body of the [try] block of api_view. *)
Definition dispatch `{Catalog} `{Collaborators} (request_body : list N) (method_name : string)
    : M (list (string * pyobject)) :=
  let! method := lift (getattr_API method_name) in
  let! body := lift (body_decode request_body) in
  let! args := lift (json_loads body) in
  let! result := call_attribute method args in
  ret (as_result_dict result).

(** The content of the response for the exception [e]. *)
Definition error_dict `{Collaborators} (e : exn) : pyval :=
  PDict [("error", PDict [("traceback", PStr (format_exc e))])].

(** The encoding of the items of a dict by json.dumps: an object without
    an encoding raises TypeError. *)
Fixpoint json_items (d : list (string * pyobject)) : outcome (list (string * pyval)) :=
  match d with
  | [] => Return []
  | (k, JsonValue v) :: rest =>
      match json_items rest with
      | Return l => Return ((k, v) :: l)
      | Raise e => Raise e
      end
  | (_, Instance _) :: _ => Raise TypeError
  end.

(** [JsonResponse(result)], line 59; the value is the content of the
    response. *)
Definition JsonResponse (result : list (string * pyobject)) : outcome pyval :=
  match json_items result with
  | Return l => Return (PDict l)
  | Raise e => Raise e
  end.

(** api_view: the [try] block with its handler, then [JsonResponse] on
    the result, outside the [try]. *)
Definition api_view `{Catalog} `{Collaborators} (request_body : list N) (method_name : string)
    : M pyval :=
  let! result :=
    try_except
      (dispatch request_body method_name)
      (fun e => capture_exception e ;;
                ret [("error", JsonValue (PDict [("traceback", PStr (format_exc e))]))]) in
  lift (JsonResponse result).

(** ** Vocabulary of the statements *)

(** The world once [u'] has been stored in memory and saved. *)
Definition with_progress `{Collaborators} (w : World) (u' : User) : World :=
  {| user := Learner u'; users_table := <[uid u' := u']> (users_table w);
     sentry := sentry w; warnings := warnings w; ext := ext w |}.

(** The same world, the collaborators being in state [x]. *)
Definition with_ext `{Collaborators} (w : World) (x : Ext) : World :=
  {| user := user w; users_table := users_table w; sentry := sentry w;
     warnings := warnings w; ext := x |}.

(** The [entry_dict] that run_code builds for a resolved page and step. *)
Definition submission_entry `{Collaborators} (code source : pyval) (page_slug step_name : string)
    (w : World) : entry_dict :=
  {| e_input := code; e_source := source; e_page_slug := page_slug;
     e_step_name := step_name;
     e_user_id := match user w with
                  | Learner u => Some (uid u)
                  | AnonymousUser => None
                  end |}.

(** The dict run_code returns when the execution reported no error. *)
Definition response_dict `{Collaborators} (output_parts : list pyval) (res : ExecutionResult)
    (state birdseye_url : pyval) : pyval :=
  PDict [("result", PList output_parts);
         ("message", PStr (markdown (r_message res)));
         ("state", state);
         ("birdseye_url", birdseye_url);
         ("passed", PBool (r_passed res))].

(** The collaborators of lines 80-88 all answer: from state [x] the
    execution service returns [res] for the request [e], and the audit
    entry, when entries are saved, is created and updated; [x1] is the
    state they are left in. *)
Definition served `{Collaborators} (e : entry_dict) (x : Ext) (res : ExecutionResult) (x1 : Ext)
    : Prop :=
  if SAVE_CODE_ENTRIES
  then exists id xa xb,
         CodeEntry_create e x = (Return id, xa) /\
         worker_result e xa = (Return res, xb) /\
         CodeEntry_save_output id (r_output res) xb = (Return tt, x1)
  else worker_result e x = (Return res, x1).

(** The trace store answers, when there is a trace to register: [url] is
    the value of [birdseye_url] and [x2] the state afterwards. *)
Definition traced `{Collaborators} (res : ExecutionResult) (x1 : Ext) (url : pyval) (x2 : Ext)
    : Prop :=
  if truthy (r_birdseye_objects res)
  then exists call_id,
         birdseye_register (r_birdseye_objects res) x1 = (Return call_id, x2) /\
         url = PStr ("/birdseye/ipython_call/" ++ call_id)
  else url = PNone /\ x2 = x1.

(** Every recorded step name is a step of its page. *)
Definition progress_wf `{Catalog} (pp : gmap string string) : Prop :=
  forall page_slug page name,
    dict_getitem pages page_slug = Return page ->
    pp !! page_slug = Some name ->
    name ∈ step_names page.

(** The catalog is a dict (no slug twice) of pages with at least one step. *)
Definition catalog_wf `{Catalog} : Prop :=
  NoDup page_slugs_list /\
  forall page_slug page, (page_slug, page) ∈ pages -> step_names page <> [].

(** The position a Python index denotes in a list of length [n]. *)
Definition position (i : Z) (n : nat) : nat :=
  Z.to_nat (if i <? 0 then i + Z.of_nat n else i).

(** The program get_solution tokenizes for a step. *)
Definition step_program `{Collaborators} (step : Step) : string :=
  match step with
  | ExerciseStep solution => clean_program solution
  | PlainStep program => program
  end.

(** The token at position [i] exists and is not pure whitespace. *)
Definition maskable (tokens : list string) (i : nat) : bool :=
  match tokens !! i with
  | Some token => negb (isspace token)
  | None => false
  end.

(** The positions of the tokens that are not pure whitespace, in order. *)
Definition eligible (tokens : list string) : list nat :=
  filter (fun i => maskable tokens i = true) (seq 0 (length tokens)).

(** The snapshot never goes down under move_step: the reading of "no
    exposed operation can move the index backward" for the operation that
    moves it. *)
Definition move_step_never_decreases `{Catalog} `{Collaborators} : Prop :=
  forall (page_index step_index : Z) (w w' : World) (before after : list Z),
    current_state w = (Return (state_dict before), w) ->
    move_step (PInt page_index) (PInt step_index) w = (Return (state_dict after), w') ->
    Forall2 Z.le before after.

(** The names the type-hint loop of api_view logs: the hinted arguments
    whose value is no instance of the hint. *)
Fixpoint mismatched (d : list (string * pyval)) (hints : list (string * hint)) : list string :=
  match hints with
  | [] => []
  | (arg_name, h) :: rest =>
      match dict_getitem d arg_name with
      | Return v =>
          if isinstance v h then mismatched d rest else arg_name :: mismatched d rest
      | Raise _ => mismatched d rest
      end
  end.

(** ** A small catalog and stand-in collaborators, for the examples *)

Definition intro_page : Page :=
  {| slug := "intro"; title := "Introduction"; index := 0;
     step_names := ["welcome"; "hello_world"];
     step_dicts := PList [];
     page_attrs := [("welcome", PlainStep "print('hi')");
                    ("hello_world", ExerciseStep "print('Hello World')")] |}.

Definition basics_page : Page :=
  {| slug := "basics"; title := "Basics"; index := 1;
     step_names := ["first"; "second"; "final_text"];
     step_dicts := PList [];
     page_attrs := [("first", PlainStep "1 + 2");
                    ("second", ExerciseStep "x = 1");
                    ("final_text", PlainStep "")] |}.

Definition demo_catalog : Catalog :=
  {| pages := [("intro", intro_page); ("basics", basics_page)] |}.

(** The tokens a tokenizer gives for the programs of the demo catalog. *)
Definition demo_tokenize (program : string) : outcome (list string) :=
  if String.eqb program "print('hi')" then Return ["print"; "("; "'hi'"; ")"; ""]
  else if String.eqb program "x = 1" then Return ["x"; " "; "="; " "; "1"; ""]
  else if String.eqb program "" then Return []
  else Raise (Failure "TokenError").

(** Names that every Python object has. *)
Definition demo_object_attributes : list string :=
  ["__repr__"; "__str__"; "__hash__"; "__eq__"; "__dict__"; "__doc__"; "__module__"].


(** Collaborators that always answer; the execution service answers [res]. *)
Definition demo_collaborators (res : ExecutionResult) : Collaborators :=
  {| Ext := nat;
     SAVE_CODE_ENTRIES := true;
     worker_result := fun _ x => (Return res, S x);
     CodeEntry_create := fun _ x => (Return (Z.of_nat x), S x);
     CodeEntry_save_output := fun _ _ x => (Return tt, S x);
     birdseye_register := fun _ x => (Return "7", S x);
     markdown := fun s => s;
     clean_program := fun s => s;
     tokenize := demo_tokenize;
     random_draw := fun x => (x, S x);
     get_user_agent := "agent";
     json_dumps := fun _ => "{}";
     py_str := fun _ => "";
     requests_post_issue := fun _ _ _ x => (Return 201, S x);
     GITHUB_TOKEN := "token";
     body_decode := fun _ => Return "";
     json_loads := fun _ => Return (PDict [("index", PInt 5)]);
     format_exc := fun _ => "Traceback (most recent call last)";
     object_attributes := demo_object_attributes;
     foreign_call := fun _ _ x => (Raise TypeError, x) |}.

Definition hi_part : pyval := output_part "hi
" "white".

Definition passed_result : ExecutionResult :=
  {| r_output := PStr "hi"; r_error := PNone; r_passed := true;
     r_awaiting_input := false; r_output_parts := [hi_part];
     r_message := ""; r_birdseye_objects := PNone |}.

Definition waiting_result : ExecutionResult :=
  {| r_output := PStr ""; r_error := PNone; r_passed := false;
     r_awaiting_input := true; r_output_parts := [hi_part];
     r_message := ""; r_birdseye_objects := PNone |}.

Definition error_result : ExecutionResult :=
  {| r_output := PStr ""; r_error := PStr "worker died"; r_passed := true;
     r_awaiting_input := false; r_output_parts := [];
     r_message := ""; r_birdseye_objects := PNone |}.

Definition demo_user (pp : gmap string string) : User :=
  {| uid := 1; email := "learner@example.com"; developer_mode := PBool false;
     page_slug := "intro"; pages_progress := pp |}.

Definition demo_world (res : ExecutionResult) (pp : gmap string string)
    : @World (demo_collaborators res) :=
  @Build_World (demo_collaborators res) (Learner (demo_user pp)) ∅ [] [] 0%nat.

(** Collaborators whose execution service is down, entries not saved. *)
Definition down_collaborators : Collaborators :=
  {| Ext := nat;
     SAVE_CODE_ENTRIES := false;
     worker_result := fun _ x => (Raise (Failure "execution service down"), S x);
     CodeEntry_create := fun _ x => (Return (Z.of_nat x), S x);
     CodeEntry_save_output := fun _ _ x => (Return tt, S x);
     birdseye_register := fun _ x => (Return "7", S x);
     markdown := fun s => s;
     clean_program := fun s => s;
     tokenize := demo_tokenize;
     random_draw := fun x => (x, S x);
     get_user_agent := "agent";
     json_dumps := fun _ => "{}";
     py_str := fun _ => "";
     requests_post_issue := fun _ _ _ x => (Return 500, S x);
     GITHUB_TOKEN := "token";
     body_decode := fun _ => Return "";
     json_loads := fun _ => Return (PList []);
     format_exc := fun _ => "Traceback (most recent call last)";
     object_attributes := demo_object_attributes;
     foreign_call := fun _ _ x => (Raise TypeError, x) |}.

(** Collaborators that always answer, the request body decoding to [args]. *)
Definition request_collaborators (args : pyval) : Collaborators :=
  {| Ext := nat;
     SAVE_CODE_ENTRIES := false;
     worker_result := fun _ x => (Return passed_result, S x);
     CodeEntry_create := fun _ x => (Return (Z.of_nat x), S x);
     CodeEntry_save_output := fun _ _ x => (Return tt, S x);
     birdseye_register := fun _ x => (Return "7", S x);
     markdown := fun s => s;
     clean_program := fun s => s;
     tokenize := demo_tokenize;
     random_draw := fun x => (x, S x);
     get_user_agent := "agent";
     json_dumps := fun _ => "{}";
     py_str := fun _ => "";
     requests_post_issue := fun _ _ _ x => (Return 201, S x);
     GITHUB_TOKEN := "token";
     body_decode := fun _ => Return "";
     json_loads := fun _ => Return args;
     format_exc := fun _ => "Traceback (most recent call last)";
     object_attributes := demo_object_attributes;
     foreign_call := fun _ _ x => (Raise TypeError, x) |}.

Definition down_world : @World down_collaborators :=
  @Build_World down_collaborators (Learner (demo_user ∅)) ∅ [] [] 0%nat.

Definition request_world (args : pyval) : @World (request_collaborators args) :=
  @Build_World (request_collaborators args) (Learner (demo_user ∅)) ∅ [] [] 0%nat.

(** * Properties *)

(** ** Python lists and dicts *)

Lemma list_getitem_int_Return {A : Type} (l : list A) (i : Z) (x : A) :
  list_getitem_int l i = Return x <->
  (- Z.of_nat (length l) <= i < Z.of_nat (length l)) /\
  l !! position i (length l) = Some x.
Proof.
  unfold list_getitem_int, position.
  destruct (i <? 0) eqn:Hneg.
  - apply Z.ltb_lt in Hneg.
    destruct ((0 <=? i + Z.of_nat (length l)) && (i + Z.of_nat (length l) <? Z.of_nat (length l)))
      eqn:Hin.
    + apply andb_true_iff in Hin as [H1 H2].
      apply Z.leb_le in H1. apply Z.ltb_lt in H2.
      destruct (l !! Z.to_nat (i + Z.of_nat (length l))) eqn:Hl.
      * split; [intros [= ->]; split; [lia | reflexivity] | intros [_ [= ->]]; reflexivity].
      * split; [discriminate | intros [_ ?]; discriminate].
    + split; [discriminate |].
      intros [Hr _].
      apply andb_false_iff in Hin as [Hf | Hf];
        [apply Z.leb_gt in Hf | apply Z.ltb_ge in Hf]; lia.
  - apply Z.ltb_ge in Hneg.
    destruct ((0 <=? i) && (i <? Z.of_nat (length l))) eqn:Hin.
    + destruct (l !! Z.to_nat i) eqn:Hl.
      * apply andb_true_iff in Hin as [H1 H2]. apply Z.ltb_lt in H2.
        split; [intros [= ->]; split; [lia | reflexivity] | intros [_ [= ->]]; reflexivity].
      * split; [discriminate | intros [_ ?]; discriminate].
    + split; [discriminate |].
      intros [Hr _].
      apply andb_false_iff in Hin as [Hf | Hf];
        [apply Z.leb_gt in Hf | apply Z.ltb_ge in Hf]; lia.
Qed.

Lemma list_getitem_int_in_range {A : Type} (l : list A) (i : Z) :
  - Z.of_nat (length l) <= i < Z.of_nat (length l) ->
  exists x, list_getitem_int l i = Return x /\ l !! position i (length l) = Some x.
Proof.
  intros Hr.
  destruct (l !! position i (length l)) as [x|] eqn:Hl.
  - exists x. split; [apply list_getitem_int_Return; split; assumption | reflexivity].
  - apply lookup_ge_None in Hl. unfold position in Hl.
    destruct (i <? 0) eqn:Hneg; [apply Z.ltb_lt in Hneg | apply Z.ltb_ge in Hneg]; lia.
Qed.

(** A negative index in range denotes the same element as the index
    counted from the start. *)
Lemma list_getitem_int_negative {A : Type} (l : list A) (i : Z) :
  - Z.of_nat (length l) <= i < 0 ->
  list_getitem_int l i = list_getitem_int l (i + Z.of_nat (length l)).
Proof.
  intros Hr. unfold list_getitem_int.
  destruct (i <? 0) eqn:H1; [| apply Z.ltb_ge in H1; lia].
  destruct (i + Z.of_nat (length l) <? 0) eqn:H2; [apply Z.ltb_lt in H2; lia |].
  reflexivity.
Qed.

Lemma list_index_first (l : list string) (x : string) :
  x ∈ l ->
  exists j : nat,
    list_index l x = Return (Z.of_nat j) /\ l !! j = Some x /\
    forall k : nat, (k < j)%nat -> l !! k <> Some x.
Proof.
  induction l as [|y l IH]; intros Hin.
  - inversion Hin.
  - simpl. destruct (String.eqb y x) eqn:E.
    + apply String.eqb_eq in E. subst y. exists 0%nat.
      split; [reflexivity | split; [reflexivity | intros k Hk; lia]].
    + apply String.eqb_neq in E.
      apply elem_of_cons in Hin as [-> | Hin]; [congruence |].
      destruct (IH Hin) as (j & Hj & Hl & Hmin).
      exists (S j). rewrite Hj. split; [f_equal; lia | split; [exact Hl |]].
      intros [|k] Hk; simpl; [congruence | apply Hmin; lia].
Qed.

Lemma list_index_NoDup (l : list string) (x : string) (j : nat) :
  NoDup l -> l !! j = Some x -> list_index l x = Return (Z.of_nat j).
Proof.
  intros Hnd Hl.
  destruct (list_index_first l x) as (j' & Hj' & Hl' & _).
  { apply list_elem_of_lookup. eauto. }
  rewrite Hj'. f_equal. f_equal.
  apply (NoDup_lookup l j' j x Hnd Hl' Hl).
Qed.

Lemma dict_getitem_elem_of {A : Type} (d : list (string * A)) (k : string) (v : A) :
  NoDup (map fst d) -> (k, v) ∈ d -> dict_getitem d k = Return v.
Proof.
  induction d as [|[k' v'] d IH]; intros Hnd Hin.
  - inversion Hin.
  - simpl in *. apply NoDup_cons in Hnd as [Hk' Hnd].
    apply elem_of_cons in Hin as [[= -> ->] | Hin].
    + rewrite String.eqb_refl. reflexivity.
    + destruct (String.eqb k' k) eqn:E.
      * apply String.eqb_eq in E. subst k'. exfalso. apply Hk'.
        apply list_elem_of_fmap. exists (k, v). split; [reflexivity | exact Hin].
      * apply IH; assumption.
Qed.

Lemma dict_getitem_Return {A : Type} (d : list (string * A)) (k : string) (v : A) :
  dict_getitem d k = Return v -> (k, v) ∈ d.
Proof.
  induction d as [|[k' v'] d IH]; simpl; [discriminate |].
  destruct (String.eqb k' k) eqn:E.
  - apply String.eqb_eq in E. intros [= ->]. subst. apply elem_of_cons. left. reflexivity.
  - intros Hd. apply elem_of_cons. right. apply IH, Hd.
Qed.

(** ** Progress state machine *)

Section Progress.
Context `{Catalog} `{Collaborators}.

Lemma current_state_Learner (w : World) (u : User) :
  user w = Learner u ->
  current_state w =
  (match progress_indices (pages_progress u) pages with
   | Return indices => Return (state_dict indices)
   | Raise e => Raise e
   end, w).
Proof.
  intros Hu. unfold current_state, bind, self_user, lift, ret. rewrite Hu.
  destruct (progress_indices (pages_progress u) pages); reflexivity.
Qed.

Lemma current_state_pure (w : World) : snd (current_state w) = w.
Proof.
  unfold current_state, bind, self_user, lift, ret.
  destruct (user w) as [|u]; [reflexivity |].
  destruct (progress_indices (pages_progress u) pages); reflexivity.
Qed.

Lemma progress_step_name_insert (pp : gmap string string) (s name s' : string) :
  progress_step_name (<[s := name]> pp) s' =
  if decide (s = s') then Return name else progress_step_name pp s'.
Proof.
  unfold progress_step_name. rewrite lookup_insert.
  destruct (decide (s = s')); reflexivity.
Qed.

Lemma progress_indices_insert_other (pp : gmap string string) (s name : string)
    (items : list (string * Page)) :
  s ∉ map fst items ->
  progress_indices (<[s := name]> pp) items = progress_indices pp items.
Proof.
  induction items as [|[s' page] items IH]; intros Hs; [reflexivity |].
  simpl in *. apply not_elem_of_cons in Hs as [Hne Hs].
  rewrite progress_step_name_insert.
  destruct (decide (s = s')); [contradiction |].
  rewrite (IH Hs). reflexivity.
Qed.

(** Recording [name] for the page at position [k] changes the snapshot at
    position [k] only. *)
Lemma progress_indices_insert (pp : gmap string string) (items : list (string * Page))
    (k : nat) (s name : string) (page : Page) (j : Z) (indices : list Z) :
  NoDup (map fst items) ->
  items !! k = Some (s, page) ->
  list_index (step_names page) name = Return j ->
  progress_indices pp items = Return indices ->
  progress_indices (<[s := name]> pp) items = Return (<[k := j]> indices).
Proof.
  revert k indices.
  induction items as [|[s' page'] items IH]; intros k indices Hnd Hk Hj Hpp.
  - discriminate.
  - simpl in Hnd. apply NoDup_cons in Hnd as [Hs' Hnd]. simpl in Hpp |- *.
    destruct (progress_step_name pp s') as [name'|] eqn:Hn'; [| discriminate].
    destruct (list_index (step_names page') name') as [i|] eqn:Hi; [| discriminate].
    destruct (progress_indices pp items) as [rest|] eqn:Hrest; [| discriminate].
    injection Hpp as <-.
    rewrite progress_step_name_insert.
    destruct k as [|k]; simpl in Hk.
    + injection Hk as -> ->.
      destruct (decide (s = s)); [| congruence].
      rewrite Hj, (progress_indices_insert_other pp s name items Hs'), Hrest.
      reflexivity.
    + destruct (decide (s = s')) as [->|Hne].
      * exfalso. apply Hs'. apply list_elem_of_fmap. exists (s', page).
        split; [reflexivity | apply list_elem_of_lookup; eauto].
      * rewrite Hn', Hi. rewrite (IH k rest Hnd Hk Hj eq_refl). reflexivity.
Qed.

(** The list comprehension of current_state returns, with one index per
    page, when every page it meets is a page of the catalog with a step,
    and the progress record is well formed. *)
Lemma progress_indices_total (pp : gmap string string) (items : list (string * Page)) :
  (forall s page, (s, page) ∈ items ->
     dict_getitem pages s = Return page /\ step_names page <> []) ->
  progress_wf pp ->
  exists indices,
    progress_indices pp items = Return indices /\
    length indices = length items /\
    forall (i : nat) s page, items !! i = Some (s, page) ->
      exists (name : string) (j : nat),
        progress_step_name pp s = Return name /\
        indices !! i = Some (Z.of_nat j) /\
        step_names page !! j = Some name /\
        (forall k : nat, (k < j)%nat -> step_names page !! k <> Some name) /\
        (pp !! s = None -> j = 0%nat).
Proof.
  intros Hitems Hwf.
  induction items as [|[s page] items IH].
  - exists []. split; [reflexivity | split; [reflexivity |]]. intros i s page Hi. discriminate.
  - destruct IH as (rest & Hrest & Hlen & Hspec).
    { intros s' page' Hin. apply Hitems. apply elem_of_cons. right. exact Hin. }
    destruct (Hitems s page) as [Hpage Hne]; [apply elem_of_cons; left; reflexivity |].
    assert (Hname : exists name,
               progress_step_name pp s = Return name /\ name ∈ step_names page /\
               (pp !! s = None -> step_names page !! 0%nat = Some name)).
    { unfold progress_step_name. destruct (pp !! s) as [name|] eqn:Hpp.
      - exists name. split; [reflexivity | split; [eapply Hwf; eauto | discriminate]].
      - rewrite Hpage. destruct (step_names page) as [|n0 ns] eqn:Hsn; [congruence |].
        exists n0. split; [reflexivity | split; [apply elem_of_cons; left; reflexivity |]].
        reflexivity. }
    destruct Hname as (name & Hname & Hin & Hdefault).
    destruct (list_index_first _ _ Hin) as (j & Hj & Hl & Hmin).
    exists (Z.of_nat j :: rest). simpl. rewrite Hname, Hj, Hrest.
    split; [reflexivity | split; [simpl; congruence |]].
    intros [|i] s' page' Hi; simpl in Hi.
    + injection Hi as <- <-. exists name, j.
      repeat split; try assumption.
      intros Hnone. destruct j as [|j]; [reflexivity |].
      exfalso. apply (Hmin 0%nat); [lia | apply Hdefault, Hnone].
    + apply Hspec, Hi.
Qed.

Lemma catalog_wf_items :
  catalog_wf ->
  forall s page, (s, page) ∈ pages ->
    dict_getitem pages s = Return page /\ step_names page <> [].
Proof.
  intros [Hnd Hne] s page Hin. split.
  - apply dict_getitem_elem_of; assumption.
  - eapply Hne, Hin.
Qed.

(** What move_step does once the page is resolved and the learner known:
    it returns the snapshot of the world it leaves, which is the world with
    the new step name stored and saved when the target is in range, and
    the world it was given otherwise. *)
Lemma move_step_resolved (page_index target : Z) (s : string) (page : Page)
    (u : User) (w : World) :
  list_getitem_int page_slugs_list page_index = Return s ->
  dict_getitem pages s = Return page ->
  user w = Learner u ->
  (0 <= target < Z.of_nat (length (step_names page)) ->
   exists name,
     step_names page !! Z.to_nat target = Some name /\
     move_step (PInt page_index) (PInt target) w =
     current_state (with_progress w (set_step_name u s name))) /\
  (~ 0 <= target < Z.of_nat (length (step_names page)) ->
   move_step (PInt page_index) (PInt target) w = current_state w).
Proof.
  intros Hs Hpage Hu. split.
  - intros Hr.
    destruct (list_getitem_int_in_range (step_names page) target) as (name & Hg & Hl); [lia |].
    exists name. split.
    + unfold position in Hl. destruct (target <? 0) eqn:E; [apply Z.ltb_lt in E; lia | exact Hl].
    + unfold move_step, bind, lift, list_getitem, in_range. simpl.
      rewrite Hs, Hpage.
      replace ((0 <=? target) && (target <? Z.of_nat (length (step_names page)))) with true
        by (symmetry; apply andb_true_iff; split; [apply Z.leb_le | apply Z.ltb_lt]; lia).
      rewrite Hg. unfold self_user. rewrite Hu. reflexivity.
  - intros Hr.
    unfold move_step, bind, lift, list_getitem, in_range. simpl.
    rewrite Hs, Hpage.
    replace ((0 <=? target) && (target <? Z.of_nat (length (step_names page)))) with false.
    + unfold ret. destruct (current_state w); reflexivity.
    + symmetry. apply andb_false_iff.
      destruct (Z.leb_spec 0 target); [right; apply Z.ltb_ge; lia | left; reflexivity].
Qed.

Lemma progress_wf_insert (pp : gmap string string) (s name : string) (page : Page) :
  dict_getitem pages s = Return page ->
  name ∈ step_names page ->
  progress_wf pp ->
  progress_wf (<[s := name]> pp).
Proof.
  intros Hpage Hin Hwf s' page' name' Hpage' Hl.
  rewrite lookup_insert in Hl. destruct (decide (s = s')) as [->|Hne].
  - injection Hl as <-. congruence.
  - eapply Hwf; eauto.
Qed.

End Progress.

Lemma progress_wf_empty `{Catalog} : progress_wf ∅.
Proof. intros s page name _ Hl. rewrite lookup_empty in Hl. discriminate. Qed.

Lemma demo_catalog_wf : @catalog_wf demo_catalog.
Proof.
  split.
  - unfold page_slugs_list. simpl.
    apply NoDup_cons. split; [| apply NoDup_singleton].
    intros Hin. apply list_elem_of_singleton in Hin. discriminate.
  - intros s page Hin. simpl in Hin.
    apply elem_of_cons in Hin as [[= -> ->] | Hin]; [discriminate |].
    apply list_elem_of_singleton in Hin as [= -> ->]. discriminate.
Qed.

Lemma demo_progress_wf : @progress_wf demo_catalog {[ "intro" := "hello_world" ]}.
Proof.
  intros s page name Hpage Hl.
  destruct (decide (s = "intro")) as [->|Hne].
  - rewrite lookup_singleton_eq in Hl. injection Hl as <-.
    simpl in Hpage. injection Hpage as <-. simpl.
    apply elem_of_cons. right. apply elem_of_cons. left. reflexivity.
  - rewrite lookup_singleton_ne in Hl by congruence. discriminate.
Qed.

(** current_state returns for a learner with a well-formed record over a
    well-formed catalog, and each index is the place of the recorded name. *)
Lemma current_state_returns `{Catalog} `{Collaborators} (w : World) (u : User) :
  user w = Learner u ->
  catalog_wf ->
  progress_wf (pages_progress u) ->
  exists indices : list Z,
    current_state w = (Return (state_dict indices), w) /\
    length indices = length pages /\
    forall (i : nat) (s : string) (page : Page),
      pages !! i = Some (s, page) ->
      (forall name, pages_progress u !! s = Some name ->
         exists j : nat,
           indices !! i = Some (Z.of_nat j) /\
           step_names page !! j = Some name /\
           forall k : nat, (k < j)%nat -> step_names page !! k <> Some name) /\
      (pages_progress u !! s = None -> indices !! i = Some 0).
Proof.
  intros Hu Hcat Hwf.
  destruct (progress_indices_total (pages_progress u) pages (catalog_wf_items Hcat) Hwf)
    as (indices & Hidx & Hlen & Hspec).
  exists indices. rewrite (current_state_Learner w u Hu), Hidx.
  split; [reflexivity | split; [exact Hlen |]].
  intros i s page Hi.
  destruct (Hspec i s page Hi) as (name & j & Hname & Hj & Hl & Hmin & Hnone).
  split.
  - intros name' Hpp. exists j.
    unfold progress_step_name in Hname. rewrite Hpp in Hname. injection Hname as ->.
    repeat split; assumption.
  - intros Hpp. rewrite Hj, (Hnone Hpp). reflexivity.
Qed.

(** C6. current_state has no effect on the state of the request, and for
    a learner with a well-formed progress record over a well-formed
    catalog it returns one index per page, in catalog order: the
    zero-based position of the recorded step name among the steps of the
    page (its first occurrence), and 0 for a page without an entry in
    pages_progress. *)
Theorem current_state_snapshot `{Catalog} `{Collaborators} (w : World) (u : User) :
  user w = Learner u ->
  catalog_wf ->
  progress_wf (pages_progress u) ->
  (forall w0 : World, snd (current_state w0) = w0) /\
  exists indices : list Z,
    current_state w = (Return (state_dict indices), w) /\
    length indices = length pages /\
    forall (i : nat) (s : string) (page : Page),
      pages !! i = Some (s, page) ->
      (forall name, pages_progress u !! s = Some name ->
         exists j : nat,
           indices !! i = Some (Z.of_nat j) /\
           step_names page !! j = Some name /\
           forall k : nat, (k < j)%nat -> step_names page !! k <> Some name) /\
      (pages_progress u !! s = None -> indices !! i = Some 0).
Proof.
  intros Hu Hcat Hwf. split.
  - intros w0. apply current_state_pure.
  - apply current_state_returns; assumption.
Qed.

Lemma current_state_snapshot_witness :
  exists indices : list Z,
    @current_state demo_catalog (demo_collaborators passed_result)
      (demo_world passed_result {[ "intro" := "hello_world" ]}) =
    (Return (state_dict indices), demo_world passed_result {[ "intro" := "hello_world" ]}) /\
    indices !! 1%nat = Some 0.
Proof.
  destruct (@current_state_snapshot demo_catalog (demo_collaborators passed_result)
              (demo_world passed_result {[ "intro" := "hello_world" ]})
              (demo_user {[ "intro" := "hello_world" ]})
              eq_refl demo_catalog_wf demo_progress_wf)
    as (_ & indices & Hcs & _ & Hspec).
  exists indices. split; [exact Hcs |].
  apply (Hspec 1%nat "basics" basics_page eq_refl). reflexivity.
Defined.

(** C1. For a page index that resolves to a page and every integer target,
    move_step returns the snapshot of the state it leaves.  When
    0 <= target < len(step_names) that state has the step name
    step_names[target] recorded for the page, in memory and in the saved
    row, and the entries of the other pages as before; otherwise it is the
    state move_step was given.  A well-formed progress record (every
    recorded name is a step of its page) stays well formed, and then the
    snapshot is returned without an exception. *)
Theorem move_step_sets_or_leaves `{Catalog} `{Collaborators}
    (page_index target : Z) (s : string) (page : Page) (u : User) (w : World) :
  list_getitem_int page_slugs_list page_index = Return s ->
  dict_getitem pages s = Return page ->
  user w = Learner u ->
  exists (w' : World) (u' : User),
    move_step (PInt page_index) (PInt target) w = current_state w' /\
    snd (move_step (PInt page_index) (PInt target) w) = w' /\
    user w' = Learner u' /\
    (0 <= target < Z.of_nat (length (step_names page)) ->
     exists name,
       step_names page !! Z.to_nat target = Some name /\
       pages_progress u' !! s = Some name /\
       (forall s', s' <> s -> pages_progress u' !! s' = pages_progress u !! s') /\
       users_table w' !! uid u = Some u') /\
    (~ 0 <= target < Z.of_nat (length (step_names page)) -> w' = w /\ u' = u) /\
    (progress_wf (pages_progress u) -> progress_wf (pages_progress u')) /\
    (catalog_wf -> progress_wf (pages_progress u) ->
     exists indices,
       move_step (PInt page_index) (PInt target) w = (Return (state_dict indices), w')).
Proof.
  intros Hs Hpage Hu.
  destruct (move_step_resolved page_index target s page u w Hs Hpage Hu) as [Hin Hout].
  destruct (decide (0 <= target < Z.of_nat (length (step_names page)))) as [Hr|Hr].
  - destruct (Hin Hr) as (name & Hl & Hm).
    exists (with_progress w (set_step_name u s name)), (set_step_name u s name).
    assert (Hwf' : progress_wf (pages_progress u) ->
                   progress_wf (pages_progress (set_step_name u s name))).
    { simpl. apply (progress_wf_insert _ s name page Hpage).
      apply list_elem_of_lookup. eauto. }
    split; [exact Hm |]. split; [rewrite Hm; apply current_state_pure |].
    split; [reflexivity |]. split; [| split; [contradiction | split; [exact Hwf' |]]].
    + intros _. exists name. split; [exact Hl |]. simpl.
      split; [apply lookup_insert_eq |]. split; [| apply lookup_insert_eq].
      intros s' Hne. apply lookup_insert_ne. congruence.
    + intros Hcat Hwf.
      destruct (current_state_returns (with_progress w (set_step_name u s name))
                  (set_step_name u s name) eq_refl Hcat (Hwf' Hwf))
        as (indices & Hcs & _).
      exists indices. rewrite Hm. exact Hcs.
  - exists w, u. rewrite (Hout Hr).
    split; [reflexivity |]. split; [apply current_state_pure |].
    split; [exact Hu |]. split; [contradiction |]. split; [intros _; split; reflexivity |].
    split; [tauto |].
    intros Hcat Hwf.
    destruct (current_state_returns w u Hu Hcat Hwf) as (indices & Hcs & _).
    exists indices. exact Hcs.
Qed.

Lemma move_step_sets_or_leaves_witness :
  exists (w' : @World (demo_collaborators passed_result)) (u' : User),
    @move_step demo_catalog (demo_collaborators passed_result) (PInt 0) (PInt 1)
      (demo_world passed_result ∅) = @current_state demo_catalog _ w' /\
    user w' = Learner u' /\
    pages_progress u' !! "intro" = Some "hello_world".
Proof.
  destruct (@move_step_sets_or_leaves demo_catalog (demo_collaborators passed_result)
              0 1 "intro" intro_page (demo_user ∅) (demo_world passed_result ∅)
              eq_refl eq_refl eq_refl)
    as (w' & u' & Hm & _ & Hu' & Hin & _).
  exists w', u'. split; [exact Hm |]. split; [exact Hu' |].
  destruct Hin as (name & Hname & Hpp & _); [simpl; lia |].
  simpl in Hname. injection Hname as <-. exact Hpp.
Defined.

(** ** Code-submission pipeline *)

Section Pipeline.
Context `{Catalog} `{Collaborators}.

(** run_code up to the test of the error field: the page and the step are
    resolved, the collaborators of lines 80-88 answer, and what remains is
    the short circuit on the error or the rest of the method, run with the
    collaborators in their new state. *)
Lemma run_code_served (code source : pyval) (page_index step_index : Z)
    (s step_name : string) (page : Page) (res : ExecutionResult) (x1 : Ext) (w : World) :
  list_getitem_int page_slugs_list page_index = Return s ->
  dict_getitem pages s = Return page ->
  list_getitem_int (step_names page) step_index = Return step_name ->
  served (submission_entry code source s step_name w) (ext w) res x1 ->
  run_code code source (PInt page_index) (PInt step_index) w =
  if truthy (r_error res)
  then (Return (PDict [("error", r_error res)]), with_ext w x1)
  else
    ((if r_passed res
      then let! _ := move_step (PInt page_index) (PInt (step_index + 1)) in ret tt
      else ret tt) ;;
     let! birdseye_url :=
       (if truthy (r_birdseye_objects res)
        then let! call_id := call_ext (birdseye_register (r_birdseye_objects res)) in
             ret (PStr ("/birdseye/ipython_call/" ++ call_id))
        else ret PNone) in
     let! state := current_state in
     ret (response_dict
            (if negb (r_awaiting_input res)
             then (r_output_parts res ++ [prompt_part])%list
             else r_output_parts res)
            res state birdseye_url)) (with_ext w x1).
Proof.
  intros Hs Hpage Hstep Hserved.
  unfold served, submission_entry in Hserved.
  unfold run_code, bind, lift, list_getitem. simpl.
  rewrite Hs, Hpage, Hstep.
  destruct SAVE_CODE_ENTRIES.
  - destruct Hserved as (id & xa & xb & Hc & Hw & Hsv).
    unfold call_ext, ret. simpl. rewrite Hc. simpl. rewrite Hw. simpl. rewrite Hsv.
    destruct (truthy (r_error res)); reflexivity.
  - unfold call_ext, ret. simpl. rewrite Hserved.
    destruct (truthy (r_error res)); reflexivity.
Qed.

(** The trace reference, computed in a world whose collaborators are in
    state [x1]. *)
Lemma trace_reference_traced (res : ExecutionResult) (x1 x2 : Ext) (url : pyval) (w : World) :
  traced res x1 url x2 ->
  ext w = x1 ->
  (if truthy (r_birdseye_objects res)
   then let! call_id := call_ext (birdseye_register (r_birdseye_objects res)) in
        ret (PStr ("/birdseye/ipython_call/" ++ call_id))
   else ret PNone) w = (Return url, with_ext w x2).
Proof.
  unfold traced. intros Ht Hx.
  destruct (truthy (r_birdseye_objects res)).
  - destruct Ht as (call_id & Hb & ->).
    unfold bind, call_ext, ret. rewrite Hx, Hb. reflexivity.
  - destruct Ht as [-> ->]. unfold ret, with_ext. rewrite <- Hx.
    destruct w; reflexivity.
Qed.

Lemma current_state_with_ext (w : World) (x : Ext) (v : pyval) :
  current_state w = (Return v, w) ->
  current_state (with_ext w x) = (Return v, with_ext w x).
Proof.
  unfold current_state, bind, self_user, lift, ret. simpl.
  destruct (user w) as [|u]; [discriminate |].
  destruct (progress_indices (pages_progress u) pages); [| discriminate].
  intros [= ->]. reflexivity.
Qed.

(** The whole of run_code for a learner, when the execution reported no
    error and every collaborator answered: the progress is advanced to
    [step_index + 1] exactly when the result passed and that index is a
    step of the page, and the response carries the output parts (with the
    prompt unless input is awaited) and the snapshot of the final state. *)
Lemma run_code_completes (code source : pyval) (page_index step_index : Z)
    (s step_name : string) (page : Page) (res : ExecutionResult) (x1 x2 : Ext)
    (url : pyval) (u : User) (w : World) :
  list_getitem_int page_slugs_list page_index = Return s ->
  dict_getitem pages s = Return page ->
  list_getitem_int (step_names page) step_index = Return step_name ->
  user w = Learner u ->
  served (submission_entry code source s step_name w) (ext w) res x1 ->
  truthy (r_error res) = false ->
  traced res x1 url x2 ->
  catalog_wf ->
  progress_wf (pages_progress u) ->
  exists (w' : World) (indices : list Z),
    run_code code source (PInt page_index) (PInt step_index) w =
    (Return (response_dict
               (if negb (r_awaiting_input res)
                then (r_output_parts res ++ [prompt_part])%list
                else r_output_parts res)
               res (state_dict indices) url), w') /\
    current_state w' = (Return (state_dict indices), w') /\
    ext w' = x2 /\
    (r_passed res = true ->
     0 <= step_index + 1 < Z.of_nat (length (step_names page)) ->
     exists name,
       step_names page !! Z.to_nat (step_index + 1) = Some name /\
       w' = with_ext (with_progress w (set_step_name u s name)) x2) /\
    (r_passed res = false \/
     ~ 0 <= step_index + 1 < Z.of_nat (length (step_names page)) ->
     w' = with_ext w x2).
Proof.
  intros Hs Hpage Hstep Hu Hserved Herr Htr Hcat Hwf.
  rewrite (run_code_served code source page_index step_index s step_name page res x1 w
             Hs Hpage Hstep Hserved), Herr.
  assert (Hu1 : user (with_ext w x1) = Learner u) by exact Hu.
  destruct (move_step_resolved page_index (step_index + 1) s page u (with_ext w x1)
              Hs Hpage Hu1) as [Hin Hout].
  destruct (r_passed res) eqn:Hpassed;
    [destruct (decide (0 <= step_index + 1 < Z.of_nat (length (step_names page)))) as [Hr|Hr] |].
  - destruct (Hin Hr) as (name & Hl & Hm).
    assert (Hwf' : progress_wf (pages_progress (set_step_name u s name))).
    { simpl. apply (progress_wf_insert _ s name page Hpage); [| exact Hwf].
      apply list_elem_of_lookup. eauto. }
    destruct (current_state_returns (with_progress (with_ext w x1) (set_step_name u s name))
                (set_step_name u s name) eq_refl Hcat Hwf') as (indices & Hcs & _).
    exists (with_ext (with_progress w (set_step_name u s name)) x2), indices.
    split; [| split; [| split; [reflexivity | split]]].
    + unfold bind at 1. unfold bind at 1. rewrite Hm, Hcs. unfold ret at 1.
      unfold bind at 1.
      rewrite (trace_reference_traced res x1 x2 url
                 (with_progress (with_ext w x1) (set_step_name u s name)) Htr eq_refl).
      unfold bind at 1.
      rewrite (current_state_with_ext _ x2 _ Hcs). reflexivity.
    + apply (current_state_with_ext _ x2 _ Hcs).
    + intros _ _. exists name. split; [exact Hl | reflexivity].
    + intros [Hf | Hf]; [discriminate | contradiction].
  - destruct (current_state_returns (with_ext w x1) u Hu1 Hcat Hwf) as (indices & Hcs & _).
    exists (with_ext w x2), indices.
    split; [| split; [| split; [reflexivity | split]]].
    + unfold bind at 1. unfold bind at 1. rewrite (Hout Hr), Hcs. unfold ret at 1.
      unfold bind at 1.
      rewrite (trace_reference_traced res x1 x2 url (with_ext w x1) Htr eq_refl).
      unfold bind at 1.
      rewrite (current_state_with_ext _ x2 _ Hcs). reflexivity.
    + apply (current_state_with_ext _ x2 _ Hcs).
    + intros _ Hr'. contradiction.
    + intros _. reflexivity.
  - destruct (current_state_returns (with_ext w x1) u Hu1 Hcat Hwf) as (indices & Hcs & _).
    exists (with_ext w x2), indices.
    split; [| split; [| split; [reflexivity | split]]].
    + unfold bind at 1. unfold ret at 1.
      unfold bind at 1.
      rewrite (trace_reference_traced res x1 x2 url (with_ext w x1) Htr eq_refl).
      unfold bind at 1.
      rewrite (current_state_with_ext _ x2 _ Hcs). reflexivity.
    + apply (current_state_with_ext _ x2 _ Hcs).
    + intros Hf. discriminate.
    + intros _. reflexivity.
Qed.

End Pipeline.

Lemma demo_served (res : ExecutionResult) (e : entry_dict) :
  @served (demo_collaborators res) e 0%nat res 3%nat.
Proof. exists 0, 1%nat, 2%nat. repeat split. Qed.

(** C2. When the error field of the execution result is set (truthy),
    run_code returns the dict holding only that error; nothing of the
    request's state changes except the state of the collaborators that
    were called before the test (audit entry, execution service): the
    learner in memory and the saved rows are as before, so move_step had no
    effect. *)
Theorem run_code_error_only `{Catalog} `{Collaborators}
    (code source : pyval) (page_index step_index : Z)
    (s step_name : string) (page : Page) (res : ExecutionResult) (x1 : Ext) (w : World) :
  list_getitem_int page_slugs_list page_index = Return s ->
  dict_getitem pages s = Return page ->
  list_getitem_int (step_names page) step_index = Return step_name ->
  served (submission_entry code source s step_name w) (ext w) res x1 ->
  truthy (r_error res) = true ->
  exists w' : World,
    run_code code source (PInt page_index) (PInt step_index) w =
    (Return (PDict [("error", r_error res)]), w') /\
    user w' = user w /\
    users_table w' = users_table w /\
    sentry w' = sentry w /\
    warnings w' = warnings w /\
    ext w' = x1.
Proof.
  intros Hs Hpage Hstep Hserved Herr.
  exists (with_ext w x1).
  rewrite (run_code_served code source page_index step_index s step_name page res x1 w
             Hs Hpage Hstep Hserved), Herr.
  repeat split.
Qed.

Lemma run_code_error_only_witness :
  exists w' : @World (demo_collaborators error_result),
    @run_code demo_catalog (demo_collaborators error_result)
      (PStr "print('hi')") (PStr "editor") (PInt 0) (PInt 0) (demo_world error_result ∅) =
    (Return (PDict [("error", PStr "worker died")]), w') /\
    user w' = Learner (demo_user ∅).
Proof.
  destruct (@run_code_error_only demo_catalog (demo_collaborators error_result)
              (PStr "print('hi')") (PStr "editor") 0 0 "intro" "welcome" intro_page
              error_result 3%nat (demo_world error_result ∅)
              eq_refl eq_refl eq_refl (demo_served error_result _) eq_refl)
    as (w' & Hrun & Hu & _).
  exists w'. split; [exact Hrun | exact Hu].
Defined.

(** C3. For a learner's submission at (page_index, step_index) whose
    result has no error, with every collaborator answering: when passed is
    true, run_code leaves the learner and the saved rows exactly as
    move_step(page_index, step_index + 1) leaves them, and the state it
    returns is the snapshot of that progress; at page_index = 0,
    step_index = 0 on a page with at least two (distinct) steps the
    snapshot starts with 1.  When passed is false the learner and the saved
    rows are as before. *)
Theorem run_code_advances_when_passed `{Catalog} `{Collaborators}
    (code source : pyval) (page_index step_index : Z)
    (s step_name : string) (page : Page) (res : ExecutionResult) (x1 x2 : Ext)
    (url : pyval) (u : User) (w : World) :
  list_getitem_int page_slugs_list page_index = Return s ->
  dict_getitem pages s = Return page ->
  list_getitem_int (step_names page) step_index = Return step_name ->
  user w = Learner u ->
  served (submission_entry code source s step_name w) (ext w) res x1 ->
  truthy (r_error res) = false ->
  traced res x1 url x2 ->
  catalog_wf ->
  progress_wf (pages_progress u) ->
  exists (w' : World) (parts : list pyval) (indices : list Z),
    run_code code source (PInt page_index) (PInt step_index) w =
    (Return (response_dict parts res (state_dict indices) url), w') /\
    current_state w' = (Return (state_dict indices), w') /\
    (r_passed res = true ->
     user w' = user (snd (move_step (PInt page_index) (PInt (step_index + 1)) w)) /\
     users_table w' =
     users_table (snd (move_step (PInt page_index) (PInt (step_index + 1)) w))) /\
    (r_passed res = true -> page_index = 0 -> step_index = 0 ->
     (2 <= length (step_names page))%nat -> NoDup (step_names page) ->
     indices !! 0%nat = Some 1) /\
    (r_passed res = false -> user w' = user w /\ users_table w' = users_table w).
Proof.
  intros Hs Hpage Hstep Hu Hserved Herr Htr Hcat Hwf.
  destruct (run_code_completes code source page_index step_index s step_name page res
              x1 x2 url u w Hs Hpage Hstep Hu Hserved Herr Htr Hcat Hwf)
    as (w' & indices & Hrun & Hcs & _ & Hin & Hout).
  exists w', (if negb (r_awaiting_input res)
              then (r_output_parts res ++ [prompt_part])%list
              else r_output_parts res), indices.
  split; [exact Hrun |]. split; [exact Hcs |].
  destruct (move_step_resolved page_index (step_index + 1) s page u w Hs Hpage Hu)
    as [Hmin Hmout].
  split; [| split].
  - intros Hp.
    destruct (decide (0 <= step_index + 1 < Z.of_nat (length (step_names page)))) as [Hr|Hr].
    + destruct (Hin Hp Hr) as (name & Hl & ->).
      destruct (Hmin Hr) as (name' & Hl' & ->).
      rewrite current_state_pure.
      assert (name' = name) by congruence. subst name'. split; reflexivity.
    + rewrite (Hout (or_intror Hr)), (Hmout Hr), current_state_pure. split; reflexivity.
  - intros Hp -> -> Hlen Hnd.
    destruct (Hin Hp) as (name & Hl & ->); [simpl; lia |].
    destruct (current_state_returns
                (with_ext (with_progress w (set_step_name u s name)) x2)
                (set_step_name u s name) eq_refl Hcat)
      as (indices' & Hcs' & _ & Hspec).
    { simpl. apply (progress_wf_insert _ s name page Hpage); [| exact Hwf].
      apply list_elem_of_lookup. eauto. }
    rewrite Hcs in Hcs'. injection Hcs' as Heq.
    assert (indices' = indices).
    { clear -Heq. revert indices' Heq.
      induction indices as [|i indices IH]; intros [|i' indices'] Heq;
        simpl in Heq; try discriminate; [reflexivity |].
      injection Heq as -> Heq. f_equal. apply IH. exact Heq. }
    subst indices'.
    apply list_getitem_int_Return in Hs as [_ Hs0].
    unfold position, page_slugs_list in Hs0. simpl in Hs0.
    rewrite list_lookup_fmap in Hs0.
    change (Z.to_nat 0) with 0%nat in Hs0.
    destruct (pages !! 0%nat) as [[s0 page0]|] eqn:Hp0; simpl in Hs0; [| discriminate].
    injection Hs0 as ->.
    assert (page0 = page).
    { destruct pages as [|[s1 p1] rest]; [discriminate |].
      simpl in Hp0. injection Hp0 as -> ->. simpl in Hpage.
      rewrite String.eqb_refl in Hpage. congruence. }
    subst page0.
    destruct (Hspec 0%nat s page Hp0) as [Hsome _].
    destruct (Hsome name) as (j & Hj & Hlj & _); [simpl; apply lookup_insert_eq |].
    rewrite Hj. do 2 f_equal.
    change (Z.to_nat (0 + 1)) with 1%nat in Hl.
    rewrite (NoDup_lookup _ j 1%nat name Hnd Hlj Hl). reflexivity.
  - intros Hp. rewrite (Hout (or_introl Hp)). split; reflexivity.
Qed.

Lemma demo_untraced (res : ExecutionResult) (x : nat) :
  r_birdseye_objects res = PNone -> @traced (demo_collaborators res) res x PNone x.
Proof. intros Hb. unfold traced. rewrite Hb. split; reflexivity. Qed.

Lemma intro_steps_NoDup : NoDup (step_names intro_page).
Proof.
  simpl. apply NoDup_cons. split; [| apply NoDup_singleton].
  intros Hin. apply list_elem_of_singleton in Hin. discriminate.
Qed.

Lemma run_code_advances_when_passed_witness :
  exists (w' : @World (demo_collaborators passed_result)) (parts : list pyval)
         (indices : list Z),
    @run_code demo_catalog (demo_collaborators passed_result)
      (PStr "print('hi')") (PStr "editor") (PInt 0) (PInt 0) (demo_world passed_result ∅) =
    (Return (@response_dict (demo_collaborators passed_result) parts passed_result
               (state_dict indices) PNone), w') /\
    indices !! 0%nat = Some 1.
Proof.
  destruct (@run_code_advances_when_passed demo_catalog (demo_collaborators passed_result)
              (PStr "print('hi')") (PStr "editor") 0 0 "intro" "welcome" intro_page
              passed_result 3%nat 3%nat PNone (demo_user ∅) (demo_world passed_result ∅)
              eq_refl eq_refl eq_refl eq_refl (demo_served passed_result _) eq_refl
              (demo_untraced passed_result 3%nat eq_refl) demo_catalog_wf progress_wf_empty)
    as (w' & parts & indices & Hrun & _ & _ & Hone & _).
  exists w', parts, indices. split; [exact Hrun |].
  apply Hone; [reflexivity | reflexivity | reflexivity | simpl; lia | exact intro_steps_NoDup].
Defined.

(** C7. For a learner's submission whose result has no error, with every
    collaborator answering, the "result" of the response is the list of
    output parts of the execution followed by exactly one prompt fragment
    (text ">>> ", color "white") when awaiting_input is false, and the
    list of output parts as the execution produced it when awaiting_input
    is true. *)
Theorem run_code_prompt_fragment `{Catalog} `{Collaborators}
    (code source : pyval) (page_index step_index : Z)
    (s step_name : string) (page : Page) (res : ExecutionResult) (x1 x2 : Ext)
    (url : pyval) (u : User) (w : World) :
  list_getitem_int page_slugs_list page_index = Return s ->
  dict_getitem pages s = Return page ->
  list_getitem_int (step_names page) step_index = Return step_name ->
  user w = Learner u ->
  served (submission_entry code source s step_name w) (ext w) res x1 ->
  truthy (r_error res) = false ->
  traced res x1 url x2 ->
  catalog_wf ->
  progress_wf (pages_progress u) ->
  exists (w' : World) (parts : list pyval) (state : pyval),
    run_code code source (PInt page_index) (PInt step_index) w =
    (Return (response_dict parts res state url), w') /\
    (r_awaiting_input res = false ->
     parts = (r_output_parts res ++ [output_part ">>> " "white"])%list) /\
    (r_awaiting_input res = true -> parts = r_output_parts res).
Proof.
  intros Hs Hpage Hstep Hu Hserved Herr Htr Hcat Hwf.
  destruct (run_code_completes code source page_index step_index s step_name page res
              x1 x2 url u w Hs Hpage Hstep Hu Hserved Herr Htr Hcat Hwf)
    as (w' & indices & Hrun & _).
  exists w', (if negb (r_awaiting_input res)
              then (r_output_parts res ++ [prompt_part])%list
              else r_output_parts res), (state_dict indices).
  split; [exact Hrun |].
  split; intros ->; reflexivity.
Qed.

Lemma run_code_prompt_fragment_witness :
  exists (w' : @World (demo_collaborators waiting_result)) (state : pyval),
    @run_code demo_catalog (demo_collaborators waiting_result)
      (PStr "input()") (PStr "shell") (PInt 0) (PInt 0) (demo_world waiting_result ∅) =
    (Return (@response_dict (demo_collaborators waiting_result) [hi_part] waiting_result
               state PNone), w').
Proof.
  destruct (@run_code_prompt_fragment demo_catalog (demo_collaborators waiting_result)
              (PStr "input()") (PStr "shell") 0 0 "intro" "welcome" intro_page
              waiting_result 3%nat 3%nat PNone (demo_user ∅) (demo_world waiting_result ∅)
              eq_refl eq_refl eq_refl eq_refl (demo_served waiting_result _) eq_refl
              (demo_untraced waiting_result 3%nat eq_refl) demo_catalog_wf progress_wf_empty)
    as (w' & parts & state & Hrun & _ & Hwait).
  exists w', state. rewrite (Hwait eq_refl) in Hrun. exact Hrun.
Defined.

(** ** Solution-puzzle generator *)

(** The loop over the tokens, started at position [i] of the whole list
    [pre ++ tokens]: it appends the maskable positions from [i] on, in
    order, and sets the mask there. *)
Lemma mask_loop_spec (pre tokens : list string) (acc : list nat) (mask : list bool) :
  length mask = length (pre ++ tokens) ->
  let all := (pre ++ tokens)%list in
  let r := mask_loop (length pre) tokens acc mask in
  fst r = (acc ++ filter (fun i => maskable all i = true)
                         (seq (length pre) (length tokens)))%list /\
  length (snd r) = length mask /\
  forall k : nat,
    snd r !! k =
    if decide (length pre <= k)%nat
    then if maskable all k then Some true else mask !! k
    else mask !! k.
Proof.
  revert pre acc mask.
  induction tokens as [|token tokens IH]; intros pre acc mask Hlen all r.
  - subst r. simpl. split; [rewrite app_nil_r; reflexivity |]. split; [reflexivity |].
    intros k. destruct (decide (length pre <= k)%nat) as [Hk|Hk]; [| reflexivity].
    unfold maskable. subst all. rewrite app_nil_r.
    rewrite (proj2 (lookup_ge_None pre k) Hk). reflexivity.
  - assert (Hall : all = ((pre ++ [token]) ++ tokens)%list)
      by (subst all; rewrite <- app_assoc; reflexivity).
    assert (Hhere : all !! length pre = Some token)
      by (subst all; apply list_lookup_middle; reflexivity).
    assert (Hpre' : length (pre ++ [token]) = S (length pre))
      by (rewrite length_app; simpl; lia).
    subst r. simpl mask_loop.
    destruct (negb (isspace token)) eqn:Htok.
    + specialize (IH (pre ++ [token])%list (acc ++ [length pre])%list
                     (<[length pre := true]> mask)).
      rewrite Hpre', <- Hall in IH.
      destruct IH as (Hfst & Hl & Hsnd).
      { rewrite length_insert. exact Hlen. }
      split; [| split].
      * rewrite Hfst. simpl seq. rewrite filter_cons_True
          by (unfold maskable; rewrite Hhere; exact Htok).
        rewrite <- app_assoc. reflexivity.
      * rewrite Hl. apply length_insert.
      * intros k. rewrite Hsnd.
        destruct (decide (S (length pre) <= k)%nat) as [Hk|Hk].
        -- destruct (decide (length pre <= k)%nat); [| lia].
           rewrite list_lookup_insert_ne by lia. reflexivity.
        -- destruct (decide (length pre <= k)%nat) as [Hk'|Hk'].
           ++ assert (k = length pre) by lia. subst k.
              unfold maskable. rewrite Hhere, Htok.
              apply list_lookup_insert_eq.
              rewrite Hlen, length_app. simpl. lia.
           ++ rewrite list_lookup_insert_ne by lia. reflexivity.
    + specialize (IH (pre ++ [token])%list acc mask).
      rewrite Hpre', <- Hall in IH.
      destruct IH as (Hfst & Hl & Hsnd); [exact Hlen |].
      split; [| split].
      * rewrite Hfst. simpl seq. rewrite filter_cons_False
          by (unfold maskable; rewrite Hhere, Htok; discriminate).
        reflexivity.
      * exact Hl.
      * intros k. rewrite Hsnd.
        destruct (decide (S (length pre) <= k)%nat) as [Hk|Hk].
        -- destruct (decide (length pre <= k)%nat); [reflexivity | lia].
        -- destruct (decide (length pre <= k)%nat) as [Hk'|Hk']; [| reflexivity].
           assert (k = length pre) by lia. subst k.
           unfold maskable. rewrite Hhere, Htok. reflexivity.
Qed.

(** Exchanging two elements of a list permutes it. *)
Lemma swap_cons_Permutation (x : list nat) (j a h : nat) :
  x !! j = Some a -> a :: <[j := h]> x ≡ₚ h :: x.
Proof.
  revert j. induction x as [|y x IH]; intros j Hj; [discriminate |].
  destruct j as [|j]; simpl in *.
  - injection Hj as ->. apply perm_swap.
  - rewrite (perm_swap y a). rewrite (IH j Hj). apply perm_swap.
Qed.

Lemma swap_Permutation (x : list nat) (i j : nat) : swap x i j ≡ₚ x.
Proof.
  unfold swap.
  destruct (x !! i) as [a|] eqn:Hi; [| reflexivity].
  destruct (x !! j) as [b|] eqn:Hj; [| reflexivity].
  revert i j Hi Hj. induction x as [|h x IH]; intros i j Hi Hj; [discriminate |].
  destruct i as [|i], j as [|j]; simpl in *.
  - injection Hi as ->. reflexivity.
  - injection Hi as ->. apply swap_cons_Permutation, Hj.
  - injection Hj as ->. apply swap_cons_Permutation, Hi.
  - f_equiv. apply IH; assumption.
Qed.

Lemma shuffle_from_Permutation `{Collaborators} (i : nat) (x : list nat) (g : Ext) :
  fst (shuffle_from i x g) ≡ₚ x.
Proof.
  revert x g. induction i as [|i IH]; intros x g; [reflexivity |].
  simpl. destruct (random_draw g) as [r g'].
  rewrite IH. apply swap_Permutation.
Qed.

Lemma eligible_NoDup (tokens : list string) : NoDup (eligible tokens).
Proof. unfold eligible. apply NoDup_filter, NoDup_seq. Qed.

Lemma elem_of_eligible (tokens : list string) (i : nat) :
  i ∈ eligible tokens <-> maskable tokens i = true.
Proof.
  unfold eligible. rewrite list_elem_of_filter, elem_of_seq. split; [tauto |].
  intros Hm. split; [exact Hm |]. split; [lia |]. simpl.
  unfold maskable in Hm. destruct (tokens !! i) eqn:Hl; [| discriminate].
  apply lookup_lt_Some in Hl. exact Hl.
Qed.

(** C4. When the page and the step resolve and the tokenizer returns
    [tokens], get_solution returns these tokens with a mask of the same
    length and the masked indices, such that for every index i:
    mask[i] is true iff i is among the masked indices iff tokens[i] is not
    pure whitespace (str.isspace is false); the masked indices have no
    duplicates and are a permutation of the positions of the tokens that
    are not pure whitespace; with no token at all (the tokens of the empty
    program) they are empty. *)
Theorem get_solution_mask `{Catalog} `{Collaborators}
    (page_index step_index : Z) (s step_name : string) (page : Page) (step : Step)
    (tokens : list string) (w : World) :
  list_getitem_int page_slugs_list page_index = Return s ->
  dict_getitem pages s = Return page ->
  list_getitem_int (step_names page) step_index = Return step_name ->
  getattr_step page step_name = Return step ->
  tokenize (step_program step) = Return tokens ->
  exists (masked : list nat) (mask : list bool) (w' : World),
    get_solution (PInt page_index) (PInt step_index) w =
    (Return (puzzle_dict tokens masked mask), w') /\
    length mask = length tokens /\
    (forall i : nat, (i < length tokens)%nat ->
       (mask !! i = Some true <-> i ∈ masked) /\
       (i ∈ masked <-> maskable tokens i = true)) /\
    (forall (i : nat) (token : string), tokens !! i = Some token ->
       (i ∈ masked <-> isspace token = false)) /\
    (forall i : nat, i ∈ masked -> (i < length tokens)%nat) /\
    NoDup masked /\
    masked ≡ₚ eligible tokens /\
    (tokens = [] -> masked = []).
Proof.
  intros Hs Hpage Hstep Hattr Htok.
  pose proof (mask_loop_spec [] tokens [] (replicate (length tokens) false)) as Hloop.
  simpl in Hloop. destruct Hloop as (Hfst & Hlen & Hsnd); [apply length_replicate |].
  fold (eligible tokens) in Hfst.
  destruct (mask_loop 0 tokens [] (replicate (length tokens) false)) as [mi mask] eqn:Hml.
  simpl in Hfst, Hlen, Hsnd. subst mi.
  pose proof (shuffle_from_Permutation (length (eligible tokens) - 1) (eligible tokens)
                (ext w)) as Hperm.
  destruct (shuffle_from (length (eligible tokens) - 1) (eligible tokens) (ext w))
    as [masked g'] eqn:Hsh.
  simpl in Hperm.
  assert (Hin : forall i, i ∈ masked <-> maskable tokens i = true).
  { intros i. rewrite Hperm. apply elem_of_eligible. }
  exists masked, mask, (with_ext w g').
  split; [| split; [| split; [| split; [| split; [| split; [| split]]]]]].
  - unfold get_solution, bind, lift, list_getitem. simpl.
    rewrite Hs, Hpage, Hstep, Hattr.
    unfold step_program in Htok. rewrite Htok, Hml.
    unfold shuffle, call_ext. rewrite Hsh. reflexivity.
  - rewrite Hlen. apply length_replicate.
  - intros i Hi. split; [| apply Hin].
    rewrite Hin, Hsnd.
    destruct (decide (0 <= i)%nat); [| lia].
    destruct (maskable tokens i); [tauto |].
    rewrite lookup_replicate_2 by exact Hi. split; discriminate.
  - intros i token Hl. rewrite Hin. unfold maskable. rewrite Hl.
    destruct (isspace token); simpl; split; congruence.
  - intros i Hi. apply Hin in Hi. unfold maskable in Hi.
    destruct (tokens !! i) eqn:Hl; [| discriminate].
    apply lookup_lt_Some in Hl. exact Hl.
  - rewrite Hperm. apply eligible_NoDup.
  - exact Hperm.
  - intros ->. apply Permutation_nil_r. exact Hperm.
Qed.

Lemma get_solution_mask_witness :
  exists (masked : list nat) (mask : list bool) (w' : @World (demo_collaborators passed_result)),
    @get_solution demo_catalog (demo_collaborators passed_result) (PInt 1) (PInt 1)
      (demo_world passed_result ∅) =
    (Return (puzzle_dict ["x"; " "; "="; " "; "1"; ""] masked mask), w') /\
    NoDup masked /\
    (1%nat ∈ masked <-> isspace " " = false).
Proof.
  destruct (@get_solution_mask demo_catalog (demo_collaborators passed_result)
              1 1 "basics" "second" basics_page (ExerciseStep "x = 1")
              ["x"; " "; "="; " "; "1"; ""] (demo_world passed_result ∅)
              eq_refl eq_refl eq_refl eq_refl eq_refl)
    as (masked & mask & w' & Hrun & _ & _ & Htok & _ & Hnd & _).
  exists masked, mask, w'. split; [exact Hrun |]. split; [exact Hnd |].
  apply (Htok 1%nat " " eq_refl).
Defined.

(** ** The progress pointer under move_step *)

Lemma state_dict_inj (a b : list Z) : state_dict a = state_dict b -> a = b.
Proof.
  unfold state_dict. intros [= Heq]. revert b Heq.
  induction a as [|i a IH]; intros [|j b] Heq; simpl in Heq; try discriminate.
  - reflexivity.
  - injection Heq as -> Heq. f_equal. apply IH, Heq.
Qed.

(** The page a page index resolves to sits at the position the index
    denotes in the catalog. *)
Lemma resolved_page_lookup `{Catalog} (page_index : Z) (s : string) (page : Page) :
  NoDup page_slugs_list ->
  list_getitem_int page_slugs_list page_index = Return s ->
  dict_getitem pages s = Return page ->
  pages !! position page_index (length pages) = Some (s, page).
Proof.
  intros Hnd Hs Hpage.
  apply list_getitem_int_Return in Hs as [_ Hs].
  unfold page_slugs_list in Hs. rewrite length_map, list_lookup_fmap in Hs.
  destruct (pages !! position page_index (length pages)) as [[s' page']|] eqn:Hl;
    simpl in Hs; [| discriminate].
  injection Hs as ->.
  assert (Hin : (s, page') ∈ pages) by (apply list_elem_of_lookup; eauto).
  rewrite (dict_getitem_elem_of pages s page' Hnd Hin) in Hpage.
  injection Hpage as ->. reflexivity.
Qed.

Lemma Forall2_le_insert (l : list Z) (k : nat) (t : Z) :
  (forall old, l !! k = Some old -> old <= t) ->
  Forall2 Z.le l (<[k := t]> l).
Proof.
  revert k. induction l as [|x l IH]; intros k Hk; [constructor |].
  destruct k as [|k]; simpl.
  - constructor; [apply Hk; reflexivity | apply Forall2_same_length_lookup_2; [reflexivity |]].
    intros i a b Ha Hb. assert (a = b) by congruence. subst. lia.
  - constructor; [lia | apply IH]. intros old Hold. apply Hk. exact Hold.
Qed.

Lemma Forall2_le_refl (l : list Z) : Forall2 Z.le l l.
Proof. induction l; constructor; [lia | assumption]. Qed.

Lemma move_step_can_decrease :
  ~ @move_step_never_decreases demo_catalog (demo_collaborators passed_result).
Proof.
  intros Hmono.
  specialize (Hmono 0 0 (demo_world passed_result {[ "intro" := "hello_world" ]})
                (with_progress (demo_world passed_result {[ "intro" := "hello_world" ]})
                   (set_step_name (demo_user {[ "intro" := "hello_world" ]}) "intro" "welcome"))
                [1; 0] [0; 0] eq_refl eq_refl).
  inversion Hmono as [|? ? ? ? Hle _]. lia.
Qed.

(** C8, as amended.  move_step stores the target it is given (last write
    wins): for a learner with a well-formed record, on a page whose step
    names are distinct, the snapshot after move_step(page_index, target)
    is the snapshot before with the index of the addressed page replaced
    by the target when 0 <= target < len(step_names), and the same
    snapshot otherwise.  Hence no index decreases when the target is out
    of range or not below the current index of the page; the indices of
    the other pages never change. *)
Theorem move_step_last_write_wins `{Catalog} `{Collaborators}
    (page_index target : Z) (s : string) (page : Page) (u : User) (w : World)
    (before : list Z) :
  catalog_wf ->
  progress_wf (pages_progress u) ->
  user w = Learner u ->
  list_getitem_int page_slugs_list page_index = Return s ->
  dict_getitem pages s = Return page ->
  NoDup (step_names page) ->
  current_state w = (Return (state_dict before), w) ->
  exists (w' : World) (after : list Z),
    move_step (PInt page_index) (PInt target) w = (Return (state_dict after), w') /\
    (0 <= target < Z.of_nat (length (step_names page)) ->
     after = <[position page_index (length pages) := target]> before) /\
    (~ 0 <= target < Z.of_nat (length (step_names page)) -> after = before) /\
    ((forall old, before !! position page_index (length pages) = Some old -> old <= target) \/
     ~ 0 <= target < Z.of_nat (length (step_names page)) ->
     Forall2 Z.le before after).
Proof.
  intros Hcat Hwf Hu Hs Hpage Hnd Hbefore.
  pose proof (resolved_page_lookup page_index s page (proj1 Hcat) Hs Hpage) as Hk.
  rewrite (current_state_Learner w u Hu) in Hbefore.
  destruct (progress_indices (pages_progress u) pages) as [indices|] eqn:Hidx;
    [| discriminate].
  assert (Heq : indices = before) by (apply state_dict_inj; congruence).
  subst indices. clear Hbefore.
  destruct (move_step_resolved page_index target s page u w Hs Hpage Hu) as [Hin Hout].
  destruct (decide (0 <= target < Z.of_nat (length (step_names page)))) as [Hr|Hr].
  - destruct (Hin Hr) as (name & Hl & Hm).
    exists (with_progress w (set_step_name u s name)),
           (<[position page_index (length pages) := target]> before).
    split; [| split; [reflexivity | split; [contradiction |]]].
    + rewrite Hm.
      rewrite (current_state_Learner (with_progress w (set_step_name u s name))
                 (set_step_name u s name) eq_refl). simpl.
      rewrite (progress_indices_insert (pages_progress u) pages
                 (position page_index (length pages)) s name page target before
                 (proj1 Hcat) Hk); [reflexivity | | exact Hidx].
      rewrite (list_index_NoDup _ name (Z.to_nat target) Hnd Hl). f_equal. lia.
    + intros [Hle | Hf]; [apply Forall2_le_insert, Hle | contradiction].
  - exists w, before. rewrite (Hout Hr), (current_state_Learner w u Hu), Hidx.
    split; [reflexivity |]. split; [contradiction |]. split; [reflexivity |].
    intros _. apply Forall2_le_refl.
Qed.

Lemma move_step_last_write_wins_witness :
  exists (w' : @World (demo_collaborators passed_result)) (after : list Z),
    @move_step demo_catalog (demo_collaborators passed_result) (PInt 0) (PInt 0)
      (demo_world passed_result {[ "intro" := "hello_world" ]}) =
    (Return (state_dict after), w') /\
    after = [0; 0].
Proof.
  destruct (@move_step_last_write_wins demo_catalog (demo_collaborators passed_result)
              0 0 "intro" intro_page (demo_user {[ "intro" := "hello_world" ]})
              (demo_world passed_result {[ "intro" := "hello_world" ]}) [1; 0]
              demo_catalog_wf demo_progress_wf eq_refl eq_refl eq_refl intro_steps_NoDup
              eq_refl)
    as (w' & after & Hm & Hin & _).
  exists w', after. split; [exact Hm |]. apply Hin. simpl. lia.
Defined.

(** ** The dispatch boundary *)

Lemma json_items_JsonValue (d : list (string * pyval)) :
  json_items (map (fun kv => (fst kv, JsonValue (snd kv))) d) = Return d.
Proof.
  induction d as [|[k v] d IH]; [reflexivity |].
  simpl. rewrite IH. reflexivity.
Qed.

(** A result that json encodes is answered as it is when it is a dict and
    under the key "result" otherwise. *)
Lemma JsonResponse_JsonValue (v : pyval) :
  JsonResponse (as_result_dict (JsonValue v)) =
  Return (if is_dict v then v else PDict [("result", v)]).
Proof.
  destruct v; try reflexivity.
  unfold JsonResponse, as_result_dict. rewrite json_items_JsonValue. reflexivity.
Qed.

(** An exception of the [try] block is reported and answered. *)
Lemma api_view_reports `{Catalog} `{Collaborators}
    (request_body : list N) (method_name : string) (e : exn) (w w1 : World) :
  dispatch request_body method_name w = (Raise e, w1) ->
  api_view request_body method_name w =
  (Return (error_dict e),
   {| user := user w1; users_table := users_table w1;
      sentry := (sentry w1 ++ [e])%list; warnings := warnings w1; ext := ext w1 |}).
Proof.
  intros Hd. unfold api_view, bind, try_except. rewrite Hd. reflexivity.
Qed.

(** The call of an operation raises or returns a value that json encodes. *)
Lemma dispatch_method `{Catalog} `{Collaborators}
    (request_body : list N) (method_name : string) (m : method) (w w1 : World)
    (r : list (string * pyobject)) :
  getattr_API method_name = Return (attr_method m) ->
  dispatch request_body method_name w = (Return r, w1) ->
  exists v : pyval, r = as_result_dict (JsonValue v).
Proof.
  intros Hg. unfold dispatch, bind, lift. rewrite Hg.
  destruct (body_decode request_body) as [body|]; [| discriminate].
  destruct (json_loads body) as [args|]; [| discriminate].
  unfold call_attribute, bind.
  destruct (check_hints (type_hints m) args w) as [[[]|] w0]; [| discriminate].
  destruct (call_method m args w0) as [[v|] w2]; [| discriminate].
  unfold ret. intros [= <- <-]. exists v. reflexivity.
Qed.

(** C9. api_view does not always return a structured value.  The lookup
    of the method accepts every attribute of the instance, and the call of
    JsonResponse stands after the try block, outside it.  For the method
    name __class__ and a body that decodes to {"request": 5}, the body of
    the try block builds an instance of API without an exception, the
    result {'result': instance} has no encoding, and the TypeError of
    JsonResponse leaves api_view: no dict is returned and nothing is
    reported to the error tracker. *)
Theorem api_view_unencodable_result_escapes :
  @api_view demo_catalog (request_collaborators (PDict [("request", PInt 5)])) []
    "__class__" (request_world (PDict [("request", PInt 5)])) =
  (Raise TypeError, request_world (PDict [("request", PInt 5)])).
Proof. reflexivity. Qed.

(** get_solution returns the tokens of the tokenizer with the masked
    indices, which are the maskable positions in some order. *)
Lemma get_solution_returns `{Catalog} `{Collaborators}
    (page_index step_index : Z) (s step_name : string) (page : Page) (step : Step)
    (tokens : list string) (w : World) :
  list_getitem_int page_slugs_list page_index = Return s ->
  dict_getitem pages s = Return page ->
  list_getitem_int (step_names page) step_index = Return step_name ->
  getattr_step page step_name = Return step ->
  tokenize (step_program step) = Return tokens ->
  exists (masked : list nat) (mask : list bool) (w' : World),
    get_solution (PInt page_index) (PInt step_index) w =
    (Return (puzzle_dict tokens masked mask), w') /\
    masked ≡ₚ eligible tokens /\
    forall k : nat, mask !! k =
      if maskable tokens k then Some true else replicate (length tokens) false !! k.
Proof.
  intros Hs Hpage Hstep Hattr Htok.
  pose proof (mask_loop_spec [] tokens [] (replicate (length tokens) false)) as Hloop.
  simpl in Hloop. destruct Hloop as (Hfst & _ & Hsnd); [apply length_replicate |].
  fold (eligible tokens) in Hfst.
  destruct (mask_loop 0 tokens [] (replicate (length tokens) false)) as [mi mask] eqn:Hml.
  simpl in Hfst, Hsnd. subst mi.
  pose proof (shuffle_from_Permutation (length (eligible tokens) - 1) (eligible tokens)
                (ext w)) as Hperm.
  destruct (shuffle_from (length (eligible tokens) - 1) (eligible tokens) (ext w))
    as [masked g'] eqn:Hsh.
  simpl in Hperm.
  exists masked, mask, (with_ext w g'). split; [| split; [exact Hperm |]].
  - unfold get_solution, bind, lift, list_getitem. simpl.
    rewrite Hs, Hpage, Hstep, Hattr.
    unfold step_program in Htok. rewrite Htok, Hml.
    unfold shuffle, call_ext. rewrite Hsh. reflexivity.
  - intros k. rewrite Hsnd. destruct (decide (0 <= k)%nat); [reflexivity | lia].
Qed.

(** ** Negative indices *)

Section NegativeIndices.
Context `{Catalog} `{Collaborators}.

Lemma list_getitem_negative {A : Type} (l : list A) (i : Z) :
  - Z.of_nat (length l) <= i < 0 ->
  list_getitem l (PInt i) = list_getitem l (PInt (i + Z.of_nat (length l))).
Proof. apply list_getitem_int_negative. Qed.

Lemma move_step_negative (page_index : Z) (step_index : pyval) (w : World) :
  - Z.of_nat (length page_slugs_list) <= page_index < 0 ->
  move_step (PInt page_index) step_index w =
  move_step (PInt (page_index + Z.of_nat (length page_slugs_list))) step_index w.
Proof.
  intros Hr. unfold move_step.
  rewrite (list_getitem_negative page_slugs_list page_index Hr). reflexivity.
Qed.

Lemma set_page_negative (page_index : Z) (w : World) :
  - Z.of_nat (length page_slugs_list) <= page_index < 0 ->
  set_page (PInt page_index) w =
  set_page (PInt (page_index + Z.of_nat (length page_slugs_list))) w.
Proof.
  intros Hr. unfold set_page.
  rewrite (list_getitem_negative page_slugs_list page_index Hr). reflexivity.
Qed.

Lemma get_solution_negative (page_index : Z) (step_index : pyval) (w : World) :
  - Z.of_nat (length page_slugs_list) <= page_index < 0 ->
  get_solution (PInt page_index) step_index w =
  get_solution (PInt (page_index + Z.of_nat (length page_slugs_list))) step_index w.
Proof.
  intros Hr. unfold get_solution.
  rewrite (list_getitem_negative page_slugs_list page_index Hr). reflexivity.
Qed.

Lemma bind_ext {A B : Type} (m : M A) (k1 k2 : A -> M B) (w : World) :
  (forall a w', k1 a w' = k2 a w') -> bind m k1 w = bind m k2 w.
Proof. intros Hk. unfold bind. destruct (m w) as [[a|e] w']; [apply Hk | reflexivity]. Qed.

Lemma bind_cong_l {A B : Type} (m1 m2 : M A) (k : A -> M B) (w : World) :
  m1 w = m2 w -> bind m1 k w = bind m2 k w.
Proof. intros Hm. unfold bind. rewrite Hm. reflexivity. Qed.

Lemma run_code_negative (code source : pyval) (page_index : Z) (step_index : pyval)
    (w : World) :
  - Z.of_nat (length page_slugs_list) <= page_index < 0 ->
  run_code code source (PInt page_index) step_index w =
  run_code code source (PInt (page_index + Z.of_nat (length page_slugs_list))) step_index w.
Proof.
  intros Hr. unfold run_code.
  rewrite (list_getitem_negative page_slugs_list page_index Hr).
  do 4 (apply bind_ext; intros). cbv zeta.
  do 3 (apply bind_ext; intros).
  destruct (truthy (r_error _)); [reflexivity |].
  apply bind_cong_l.
  destruct (r_passed _); [| reflexivity].
  apply bind_ext; intros. apply bind_cong_l. apply move_step_negative, Hr.
Qed.

End NegativeIndices.


(** The page a negative index in range resolves to: the one counted from
    the end of the catalog. *)
Lemma negative_page_index_resolves `{Catalog} (page_index : Z) :
  catalog_wf ->
  - Z.of_nat (length page_slugs_list) <= page_index < 0 ->
  exists (s : string) (page : Page),
    list_getitem_int page_slugs_list page_index = Return s /\
    dict_getitem pages s = Return page /\
    pages !! Z.to_nat (page_index + Z.of_nat (length page_slugs_list)) = Some (s, page).
Proof.
  intros Hcat Hr.
  destruct (list_getitem_int_in_range page_slugs_list page_index) as (s & Hs & Hl); [lia |].
  unfold position in Hl.
  destruct (page_index <? 0) eqn:E; [| apply Z.ltb_ge in E; lia].
  unfold page_slugs_list in Hl at 2. rewrite list_lookup_fmap in Hl.
  destruct (pages !! Z.to_nat (page_index + Z.of_nat (length page_slugs_list)))
    as [[s' page]|] eqn:Hp; simpl in Hl; [| discriminate].
  injection Hl as ->. exists s, page.
  split; [exact Hs |]. split; [| reflexivity].
  apply dict_getitem_elem_of; [exact (proj1 Hcat) |].
  apply list_elem_of_lookup. eauto.
Qed.

(** C10. Over a well-formed catalog, a negative page index in range,
    -len(catalog) <= page_index < 0, is not rejected: it resolves the page
    counted from the end, the page at position page_index + len, and each
    of the four methods acts on that page exactly as with the index
    page_index + len.  For a learner, set_page stores the slug of that
    page and returns; move_step, for a learner with a well-formed record,
    stores the step of an in-range target under the slug of that page and
    returns the snapshot, whose entry at position page_index + len is the
    place of that step, and returns the unchanged snapshot for any other
    target.  get_solution returns the puzzle of the tokens of a step of
    that page, and run_code sends the execution service a request naming
    that page and step and returns its answer.  For both, the step is the
    one at the position the step index denotes, which for a negative step
    index in range is step_index + len(step_names): the step counted from
    the end. *)
Theorem negative_index_counts_from_end `{Catalog} `{Collaborators} (page_index : Z) :
  catalog_wf ->
  - Z.of_nat (length page_slugs_list) <= page_index < 0 ->
  exists (s : string) (page : Page),
    pages !! Z.to_nat (page_index + Z.of_nat (length page_slugs_list)) = Some (s, page) /\
    (forall w step_index,
       move_step (PInt page_index) step_index w =
       move_step (PInt (page_index + Z.of_nat (length page_slugs_list))) step_index w) /\
    (forall w,
       set_page (PInt page_index) w =
       set_page (PInt (page_index + Z.of_nat (length page_slugs_list))) w) /\
    (forall w step_index,
       get_solution (PInt page_index) step_index w =
       get_solution (PInt (page_index + Z.of_nat (length page_slugs_list))) step_index w) /\
    (forall w code source step_index,
       run_code code source (PInt page_index) step_index w =
       run_code code source (PInt (page_index + Z.of_nat (length page_slugs_list)))
         step_index w) /\
    (forall w u, user w = Learner u ->
       set_page (PInt page_index) w = (Return PNone, with_progress w (set_page_slug u s))) /\
    (forall w u target, user w = Learner u -> progress_wf (pages_progress u) ->
       (forall name, 0 <= target -> step_names page !! Z.to_nat target = Some name ->
          exists (indices : list Z) (j : nat),
            move_step (PInt page_index) (PInt target) w =
            (Return (state_dict indices), with_progress w (set_step_name u s name)) /\
            indices !! Z.to_nat (page_index + Z.of_nat (length page_slugs_list)) =
            Some (Z.of_nat j) /\
            step_names page !! j = Some name) /\
       (~ 0 <= target < Z.of_nat (length (step_names page)) ->
          exists indices : list Z,
            move_step (PInt page_index) (PInt target) w = (Return (state_dict indices), w))) /\
    (forall step_index name,
       - Z.of_nat (length (step_names page)) <= step_index
         < Z.of_nat (length (step_names page)) ->
       step_names page !! position step_index (length (step_names page)) = Some name ->
       (step_index < 0 ->
        step_names page !! Z.to_nat (step_index + Z.of_nat (length (step_names page))) =
        Some name) /\
       (forall w step tokens,
          getattr_step page name = Return step ->
          tokenize (step_program step) = Return tokens ->
          exists (masked : list nat) (mask : list bool) (w' : World),
            get_solution (PInt page_index) (PInt step_index) w =
            (Return (puzzle_dict tokens masked mask), w') /\
            masked ≡ₚ eligible tokens) /\
       (forall w code source res x1,
          served (submission_entry code source s name w) (ext w) res x1 ->
          truthy (r_error res) = true ->
          run_code code source (PInt page_index) (PInt step_index) w =
          (Return (PDict [("error", r_error res)]), with_ext w x1)) /\
       (forall w u code source res x1 x2 url,
          user w = Learner u -> progress_wf (pages_progress u) ->
          served (submission_entry code source s name w) (ext w) res x1 ->
          truthy (r_error res) = false ->
          traced res x1 url x2 ->
          exists (w' : World) (indices : list Z),
            run_code code source (PInt page_index) (PInt step_index) w =
            (Return (response_dict
                       (if negb (r_awaiting_input res)
                        then (r_output_parts res ++ [prompt_part])%list
                        else r_output_parts res)
                       res (state_dict indices) url), w'))).
Proof.
  intros Hcat Hr.
  destruct (negative_page_index_resolves page_index Hcat Hr) as (s & page & Hs & Hpage & Hp).
  exists s, page. split; [exact Hp |].
  split; [intros; apply move_step_negative, Hr |].
  split; [intros; apply set_page_negative, Hr |].
  split; [intros; apply get_solution_negative, Hr |].
  split; [intros; apply run_code_negative, Hr |].
  split; [| split].
  - intros w u Hu. unfold set_page, bind, lift, list_getitem. simpl.
    rewrite Hs. unfold update_user. rewrite Hu. reflexivity.
  - intros w u target Hu Hwf.
    destruct (move_step_resolved page_index target s page u w Hs Hpage Hu) as [Hin Hout].
    split.
    + intros name Hpos Hname.
      assert (Ht : 0 <= target < Z.of_nat (length (step_names page))).
      { apply lookup_lt_Some in Hname. lia. }
      destruct (Hin Ht) as (name' & Hname' & Hm).
      assert (name' = name) by congruence. subst name'.
      destruct (current_state_returns (with_progress w (set_step_name u s name))
                  (set_step_name u s name) eq_refl Hcat) as (indices & Hcs & _ & Hspec).
      { simpl. apply (progress_wf_insert _ s name page Hpage); [| exact Hwf].
        apply list_elem_of_lookup. eauto. }
      destruct (Hspec _ s page Hp) as [Hsome _].
      destruct (Hsome name) as (j & Hj & Hjn & _); [simpl; apply lookup_insert_eq |].
      exists indices, j. rewrite Hm. split; [exact Hcs |]. split; assumption.
    + intros Ht. rewrite (Hout Ht).
      destruct (current_state_returns w u Hu Hcat Hwf) as (indices & Hcs & _). eauto.
  - intros step_index name Hsr Hname.
    assert (Hn : list_getitem_int (step_names page) step_index = Return name).
    { apply list_getitem_int_Return. split; assumption. }
    split; [| split; [| split]].
    + intros Hneg. unfold position in Hname.
      destruct (step_index <? 0) eqn:E; [exact Hname | apply Z.ltb_ge in E; lia].
    + intros w step tokens Hattr Htok.
      destruct (get_solution_returns page_index step_index s name page step tokens w
                  Hs Hpage Hn Hattr Htok) as (masked & mask & w' & Hrun & Hperm & _).
      eauto.
    + intros w code source res x1 Hserved Herr.
      rewrite (run_code_served code source page_index step_index s name page res x1 w
                 Hs Hpage Hn Hserved), Herr. reflexivity.
    + intros w u code source res x1 x2 url Hu Hwf Hserved Herr Htr.
      destruct (run_code_completes code source page_index step_index s name page res x1 x2
                  url u w Hs Hpage Hn Hu Hserved Herr Htr Hcat Hwf)
        as (w' & indices & Hrun & _).
      eauto.
Qed.

Lemma negative_index_counts_from_end_witness :
  (exists indices : list Z,
     @move_step demo_catalog (demo_collaborators passed_result) (PInt (-1)) (PInt 1)
       (demo_world passed_result ∅) =
     (Return (state_dict indices),
      with_progress (demo_world passed_result ∅)
        (set_step_name (demo_user ∅) "basics" "second")) /\
     indices !! 1%nat = Some 1) /\
  (exists (masked : list nat) (mask : list bool)
          (w' : @World (demo_collaborators passed_result)),
     @get_solution demo_catalog (demo_collaborators passed_result) (PInt (-1)) (PInt (-2))
       (demo_world passed_result ∅) =
     (Return (puzzle_dict ["x"; " "; "="; " "; "1"; ""] masked mask), w')).
Proof.
  destruct (@negative_index_counts_from_end demo_catalog (demo_collaborators passed_result)
              (-1) demo_catalog_wf ltac:(simpl; lia))
    as (s & page & Hp & _ & _ & _ & _ & _ & Hmove & Hstep).
  simpl in Hp. injection Hp as <- <-.
  split.
  - destruct (Hmove (demo_world passed_result ∅) (demo_user ∅) 1 eq_refl progress_wf_empty)
      as [Hin _].
    destruct (Hin "second" ltac:(lia) eq_refl) as (indices & j & Hrun & Hj & Hjn).
    exists indices. split; [exact Hrun |].
    destruct j as [|[|[|j]]]; simpl in Hjn; try discriminate. exact Hj.
  - destruct (Hstep (-2) "second" ltac:(simpl; lia) eq_refl) as (_ & Hget & _).
    destruct (Hget (demo_world passed_result ∅) (ExerciseStep "x = 1")
                ["x"; " "; "="; " "; "1"; ""] eq_refl eq_refl)
      as (masked & mask & w' & Hrun & _).
    exists masked, mask, w'. exact Hrun.
Defined.

(** * Further properties of the module *)

(** ** Indices out of range *)

Lemma list_getitem_int_out_of_range {A : Type} (l : list A) (i : Z) :
  ~ (- Z.of_nat (length l) <= i < Z.of_nat (length l)) ->
  list_getitem_int l i = Raise IndexError.
Proof.
  intros Hr. unfold list_getitem_int.
  destruct (i <? 0) eqn:Hneg; [apply Z.ltb_lt in Hneg | apply Z.ltb_ge in Hneg].
  - destruct (0 <=? i + Z.of_nat (length l)) eqn:H1; [| reflexivity].
    apply Z.leb_le in H1. lia.
  - destruct (i <? Z.of_nat (length l)) eqn:H2.
    + apply Z.ltb_lt in H2. lia.
    + rewrite andb_false_r. reflexivity.
Qed.

(** X1. A page index outside [-len(catalog), len(catalog)) makes
    move_step, set_page, get_solution and run_code raise IndexError at
    their first line: nothing is stored, no collaborator is called, the
    state of the request is the one they were given. *)
Theorem page_index_out_of_range `{Catalog} `{Collaborators} (page_index : Z) :
  ~ (- Z.of_nat (length page_slugs_list) <= page_index < Z.of_nat (length page_slugs_list)) ->
  forall (w : World) (code source step_index : pyval),
    move_step (PInt page_index) step_index w = (Raise IndexError, w) /\
    set_page (PInt page_index) w = (Raise IndexError, w) /\
    get_solution (PInt page_index) step_index w = (Raise IndexError, w) /\
    run_code code source (PInt page_index) step_index w = (Raise IndexError, w).
Proof.
  intros Hr w code source step_index.
  pose proof (list_getitem_int_out_of_range page_slugs_list page_index Hr) as Hg.
  unfold move_step, set_page, get_solution, run_code, bind, lift, list_getitem. simpl.
  rewrite Hg. repeat split.
Qed.

Lemma page_index_out_of_range_witness :
  @set_page demo_catalog (demo_collaborators passed_result) (PInt 2)
    (demo_world passed_result ∅) = (Raise IndexError, demo_world passed_result ∅).
Proof.
  apply (@page_index_out_of_range demo_catalog (demo_collaborators passed_result) 2
           ltac:(simpl; lia) (demo_world passed_result ∅) PNone PNone PNone).
Defined.



(** ** More on the progress state machine *)

Lemma current_state_result `{Catalog} `{Collaborators} (w w' : World) (o : outcome pyval) :
  current_state w = (o, w') -> w' = w.
Proof. intros Hcs. pose proof (current_state_pure w) as Hp. rewrite Hcs in Hp. exact Hp. Qed.

(** X3. Whatever its arguments, when move_step returns a value, that
    value is what current_state returns in the state move_step left:
    the caller never receives a snapshot that differs from the stored
    progress. *)
Theorem move_step_returns_stored_state `{Catalog} `{Collaborators}
    (page_index step_index v : pyval) (w w' : World) :
  move_step page_index step_index w = (Return v, w') ->
  current_state w' = (Return v, w').
Proof.
  unfold move_step, bind, lift.
  destruct (list_getitem page_slugs_list page_index) as [s|]; [| discriminate].
  destruct (dict_getitem pages s) as [page|]; [| discriminate].
  destruct (in_range step_index (length (step_names page))) as [[|]|]; [| | discriminate].
  - destruct (list_getitem (step_names page) step_index) as [name|]; [| discriminate].
    unfold self_user. destruct (user w) as [|u]; [discriminate |]. simpl.
    intros Hcs. rewrite (current_state_result _ _ _ Hcs) at 1. exact Hcs.
  - unfold ret. intros Hcs. rewrite (current_state_result _ _ _ Hcs) at 1. exact Hcs.
Qed.

Lemma move_step_returns_stored_state_witness :
  @current_state demo_catalog (demo_collaborators passed_result)
    (with_progress (demo_world passed_result ∅) (set_step_name (demo_user ∅) "basics" "second")) =
  (Return (state_dict [0; 1]),
   with_progress (demo_world passed_result ∅) (set_step_name (demo_user ∅) "basics" "second")).
Proof.
  apply (@move_step_returns_stored_state demo_catalog (demo_collaborators passed_result)
           (PInt 1) (PInt 1) (state_dict [0; 1]) (demo_world passed_result ∅)).
  reflexivity.
Defined.

(** X4. Two successive move_step calls on the same page with in-range
    targets leave exactly the state, and return exactly the snapshot, of
    the second call alone: only the most recent target is kept. *)
Theorem move_step_twice `{Catalog} `{Collaborators}
    (page_index t1 t2 : Z) (s : string) (page : Page) (u : User) (w : World) :
  list_getitem_int page_slugs_list page_index = Return s ->
  dict_getitem pages s = Return page ->
  user w = Learner u ->
  0 <= t1 < Z.of_nat (length (step_names page)) ->
  0 <= t2 < Z.of_nat (length (step_names page)) ->
  move_step (PInt page_index) (PInt t2) (snd (move_step (PInt page_index) (PInt t1) w)) =
  move_step (PInt page_index) (PInt t2) w.
Proof.
  intros Hs Hpage Hu H1 H2.
  destruct (move_step_resolved page_index t1 s page u w Hs Hpage Hu) as [Hin1 _].
  destruct (Hin1 H1) as (n1 & Hn1 & ->). rewrite current_state_pure.
  destruct (move_step_resolved page_index t2 s page u w Hs Hpage Hu) as [Hin2 _].
  destruct (Hin2 H2) as (n2 & Hn2 & ->).
  destruct (move_step_resolved page_index t2 s page (set_step_name u s n1)
              (with_progress w (set_step_name u s n1)) Hs Hpage eq_refl) as [Hin3 _].
  destruct (Hin3 H2) as (n3 & Hn3 & ->).
  assert (n3 = n2) by congruence. subst n3.
  f_equal. unfold with_progress, set_step_name. simpl.
  rewrite !insert_insert_eq. reflexivity.
Qed.

Lemma move_step_twice_witness :
  @move_step demo_catalog (demo_collaborators passed_result) (PInt 1) (PInt 0)
    (snd (@move_step demo_catalog (demo_collaborators passed_result) (PInt 1) (PInt 2)
            (demo_world passed_result ∅))) =
  @move_step demo_catalog (demo_collaborators passed_result) (PInt 1) (PInt 0)
    (demo_world passed_result ∅).
Proof.
  apply (@move_step_twice demo_catalog (demo_collaborators passed_result) 1 2 0
           "basics" basics_page (demo_user ∅) (demo_world passed_result ∅)
           eq_refl eq_refl eq_refl); simpl; lia.
Defined.

(** The comprehension of current_state raises ValueError as soon as one
    page of a well-formed catalog has a recorded name that is none of its
    steps. *)
Lemma list_index_absent (l : list string) (x : string) :
  x ∉ l -> list_index l x = Raise ValueError.
Proof.
  induction l as [|y l IH]; intros Hx; [reflexivity |].
  apply not_elem_of_cons in Hx as [Hne Hx]. simpl.
  destruct (String.eqb y x) eqn:E; [apply String.eqb_eq in E; congruence |].
  rewrite (IH Hx). reflexivity.
Qed.

Lemma progress_indices_stale `{Catalog} (pp : gmap string string)
    (items : list (string * Page)) (s : string) (page : Page) (name : string) :
  (forall s' page', (s', page') ∈ items ->
     dict_getitem pages s' = Return page' /\ step_names page' <> []) ->
  (s, page) ∈ items ->
  pp !! s = Some name ->
  name ∉ step_names page ->
  progress_indices pp items = Raise ValueError.
Proof.
  intros Hitems Hin Hpp Hname.
  induction items as [|[s' page'] items IH]; [inversion Hin |].
  simpl.
  destruct (progress_step_name pp s') as [n|e] eqn:Hn.
  - destruct (decide (n ∈ step_names page')) as [Hmem|Hmem].
    + destruct (list_index_first _ _ Hmem) as (j & -> & _).
      apply elem_of_cons in Hin as [Heq|Hin].
      * injection Heq as -> ->. unfold progress_step_name in Hn. rewrite Hpp in Hn.
        injection Hn as ->. contradiction.
      * rewrite IH; [reflexivity | | exact Hin].
        intros s0 p0 H0. apply Hitems. apply elem_of_cons. right. exact H0.
    + rewrite (list_index_absent _ _ Hmem). reflexivity.
  - exfalso. unfold progress_step_name in Hn.
    destruct (pp !! s') eqn:Hl; [discriminate |].
    destruct (Hitems s' page') as [Hd Hne]; [apply elem_of_cons; left; reflexivity |].
    rewrite Hd in Hn. destruct (step_names page'); [congruence |].
    unfold list_getitem_int in Hn. simpl in Hn. discriminate.
Qed.

(** X5. For a learner over a well-formed catalog, current_state raises
    ValueError, and stores nothing, when the record holds for some page of
    the catalog a step name that is none of the steps of that page (a
    record left behind by a catalog that has changed). *)
Theorem current_state_stale_step_name `{Catalog} `{Collaborators}
    (w : World) (u : User) (s name : string) (page : Page) :
  user w = Learner u ->
  catalog_wf ->
  (s, page) ∈ pages ->
  pages_progress u !! s = Some name ->
  name ∉ step_names page ->
  current_state w = (Raise ValueError, w).
Proof.
  intros Hu Hcat Hin Hpp Hname.
  rewrite (current_state_Learner w u Hu).
  rewrite (progress_indices_stale (pages_progress u) pages s page name
             (catalog_wf_items Hcat) Hin Hpp Hname).
  reflexivity.
Qed.

Lemma current_state_stale_step_name_witness :
  @current_state demo_catalog (demo_collaborators passed_result)
    (demo_world passed_result {[ "basics" := "removed_step" ]}) =
  (Raise ValueError, demo_world passed_result {[ "basics" := "removed_step" ]}).
Proof.
  apply (@current_state_stale_step_name demo_catalog (demo_collaborators passed_result)
           (demo_world passed_result {[ "basics" := "removed_step" ]})
           (demo_user {[ "basics" := "removed_step" ]}) "basics" "removed_step" basics_page
           eq_refl demo_catalog_wf).
  - simpl. apply elem_of_cons. right. apply elem_of_cons. left. reflexivity.
  - apply lookup_singleton_eq.
  - simpl. intros Hin.
    repeat (apply elem_of_cons in Hin as [Hin|Hin]; [discriminate |]).
    inversion Hin.
Defined.

(** X6. For a learner and an index that resolves, set_page stores the slug
    found as the learner's current page and saves the row; the progress
    record is not touched, so current_state returns afterwards what it
    returned before. *)
Theorem set_page_stores_slug `{Catalog} `{Collaborators}
    (index : Z) (s : string) (u : User) (w : World) :
  list_getitem_int page_slugs_list index = Return s ->
  user w = Learner u ->
  set_page (PInt index) w = (Return PNone, with_progress w (set_page_slug u s)) /\
  page_slug (set_page_slug u s) = s /\
  pages_progress (set_page_slug u s) = pages_progress u /\
  users_table (with_progress w (set_page_slug u s)) !! uid u = Some (set_page_slug u s) /\
  fst (current_state (with_progress w (set_page_slug u s))) = fst (current_state w).
Proof.
  intros Hs Hu. split; [| split; [reflexivity | split; [reflexivity | split]]].
  - unfold set_page, bind, lift, list_getitem. simpl.
    rewrite Hs. unfold update_user. rewrite Hu. reflexivity.
  - simpl. apply lookup_insert_eq.
  - rewrite (current_state_Learner w u Hu).
    rewrite (current_state_Learner (with_progress w (set_page_slug u s))
               (set_page_slug u s) eq_refl).
    reflexivity.
Qed.

Lemma set_page_stores_slug_witness :
  @set_page demo_catalog (demo_collaborators passed_result) (PInt 1)
    (demo_world passed_result ∅) =
  (Return PNone, with_progress (demo_world passed_result ∅) (set_page_slug (demo_user ∅) "basics")).
Proof.
  apply (@set_page_stores_slug demo_catalog (demo_collaborators passed_result) 1 "basics"
           (demo_user ∅) (demo_world passed_result ∅) eq_refl eq_refl).
Defined.

(** ** More on the submission pipeline *)

(** X7. A passed submission on the last step of a page (step_index + 1 is
    not a step) is answered in full, with passed true, and leaves the
    progress where it was: the state in the response is the snapshot from
    before the call. *)
Theorem run_code_passed_on_last_step `{Catalog} `{Collaborators}
    (code source : pyval) (page_index step_index : Z)
    (s step_name : string) (page : Page) (res : ExecutionResult) (x1 x2 : Ext)
    (url : pyval) (u : User) (w : World) :
  list_getitem_int page_slugs_list page_index = Return s ->
  dict_getitem pages s = Return page ->
  list_getitem_int (step_names page) step_index = Return step_name ->
  user w = Learner u ->
  served (submission_entry code source s step_name w) (ext w) res x1 ->
  truthy (r_error res) = false ->
  traced res x1 url x2 ->
  catalog_wf ->
  progress_wf (pages_progress u) ->
  r_passed res = true ->
  Z.of_nat (length (step_names page)) <= step_index + 1 ->
  exists (parts : list pyval) (indices : list Z),
    run_code code source (PInt page_index) (PInt step_index) w =
    (Return (response_dict parts res (state_dict indices) url), with_ext w x2) /\
    current_state w = (Return (state_dict indices), w).
Proof.
  intros Hs Hpage Hstep Hu Hserved Herr Htr Hcat Hwf Hp Hlast.
  destruct (run_code_completes code source page_index step_index s step_name page res
              x1 x2 url u w Hs Hpage Hstep Hu Hserved Herr Htr Hcat Hwf)
    as (w' & indices & Hrun & Hcs & _ & _ & Hout).
  assert (Hnot : ~ 0 <= step_index + 1 < Z.of_nat (length (step_names page))) by lia.
  rewrite (Hout (or_intror Hnot)) in Hrun, Hcs.
  destruct (current_state_returns w u Hu Hcat Hwf) as (indices0 & Hcs0 & _).
  pose proof (current_state_with_ext w x2 _ Hcs0) as Hcs1.
  rewrite Hcs in Hcs1.
  assert (indices0 = indices) by (apply state_dict_inj; congruence). subst indices0.
  eauto.
Qed.

Lemma run_code_passed_on_last_step_witness :
  exists (parts : list pyval) (indices : list Z),
    @run_code demo_catalog (demo_collaborators passed_result)
      (PStr "print('Hello World')") (PStr "editor") (PInt 0) (PInt 1)
      (demo_world passed_result {[ "intro" := "hello_world" ]}) =
    (Return (@response_dict (demo_collaborators passed_result) parts passed_result
               (state_dict indices) PNone),
     with_ext (demo_world passed_result {[ "intro" := "hello_world" ]}) 3%nat).
Proof.
  destruct (@run_code_passed_on_last_step demo_catalog (demo_collaborators passed_result)
              (PStr "print('Hello World')") (PStr "editor") 0 1 "intro" "hello_world"
              intro_page passed_result 3%nat 3%nat PNone
              (demo_user {[ "intro" := "hello_world" ]})
              (demo_world passed_result {[ "intro" := "hello_world" ]})
              eq_refl eq_refl eq_refl eq_refl (demo_served passed_result _) eq_refl
              (demo_untraced passed_result 3%nat eq_refl) demo_catalog_wf demo_progress_wf
              eq_refl ltac:(simpl; lia))
    as (parts & indices & Hrun & _).
  exists parts, indices. exact Hrun.
Defined.

(** X8. A passed submission with step_index = -1 (the last step of the
    page, counted from the end) calls move_step with target 0: the
    learner's progress on the page is set to the first step of the page. *)
Theorem run_code_passed_at_minus_one `{Catalog} `{Collaborators}
    (code source : pyval) (page_index : Z)
    (s step_name : string) (page : Page) (res : ExecutionResult) (x1 x2 : Ext)
    (url : pyval) (u : User) (w : World) :
  list_getitem_int page_slugs_list page_index = Return s ->
  dict_getitem pages s = Return page ->
  list_getitem_int (step_names page) (-1) = Return step_name ->
  user w = Learner u ->
  served (submission_entry code source s step_name w) (ext w) res x1 ->
  truthy (r_error res) = false ->
  traced res x1 url x2 ->
  catalog_wf ->
  progress_wf (pages_progress u) ->
  r_passed res = true ->
  exists (first : string) (parts : list pyval) (indices : list Z),
    step_names page !! 0%nat = Some first /\
    step_names page !! (length (step_names page) - 1)%nat = Some step_name /\
    run_code code source (PInt page_index) (PInt (-1)) w =
    (Return (response_dict parts res (state_dict indices) url),
     with_ext (with_progress w (set_step_name u s first)) x2).
Proof.
  intros Hs Hpage Hstep Hu Hserved Herr Htr Hcat Hwf Hp.
  destruct (run_code_completes code source page_index (-1) s step_name page res
              x1 x2 url u w Hs Hpage Hstep Hu Hserved Herr Htr Hcat Hwf)
    as (w' & indices & Hrun & _ & _ & Hin & _).
  pose proof (proj1 (list_getitem_int_Return _ _ _) Hstep) as [Hr Hl].
  destruct (Hin Hp) as (first & Hfirst & ->); [lia |].
  exists first, (if negb (r_awaiting_input res)
                 then (r_output_parts res ++ [prompt_part])%list
                 else r_output_parts res), indices.
  split; [exact Hfirst |]. split; [| exact Hrun].
  unfold position in Hl. simpl in Hl.
  replace (length (step_names page) - 1)%nat
    with (Z.to_nat (-1 + Z.of_nat (length (step_names page)))) by lia.
  exact Hl.
Qed.

Lemma demo_progress_wf_basics : @progress_wf demo_catalog {[ "basics" := "second" ]}.
Proof.
  intros s page name Hpage Hl.
  destruct (decide (s = "basics")) as [->|Hne].
  - rewrite lookup_singleton_eq in Hl. injection Hl as <-.
    simpl in Hpage. injection Hpage as <-. simpl.
    apply elem_of_cons. right. apply elem_of_cons. left. reflexivity.
  - rewrite lookup_singleton_ne in Hl by congruence. discriminate.
Qed.

Lemma run_code_passed_at_minus_one_witness :
  exists (parts : list pyval) (indices : list Z),
    @run_code demo_catalog (demo_collaborators passed_result)
      (PStr "x = 1") (PStr "editor") (PInt 1) (PInt (-1))
      (demo_world passed_result {[ "basics" := "second" ]}) =
    (Return (@response_dict (demo_collaborators passed_result) parts passed_result
               (state_dict indices) PNone),
     with_ext (with_progress (demo_world passed_result {[ "basics" := "second" ]})
                 (set_step_name (demo_user {[ "basics" := "second" ]}) "basics" "first"))
       3%nat).
Proof.
  destruct (@run_code_passed_at_minus_one demo_catalog (demo_collaborators passed_result)
              (PStr "x = 1") (PStr "editor") 1 "basics" "final_text"
              basics_page passed_result 3%nat 3%nat PNone
              (demo_user {[ "basics" := "second" ]})
              (demo_world passed_result {[ "basics" := "second" ]})
              eq_refl eq_refl eq_refl eq_refl (demo_served passed_result _) eq_refl
              (demo_untraced passed_result 3%nat eq_refl) demo_catalog_wf
              demo_progress_wf_basics eq_refl)
    as (first & parts & indices & Hfirst & _ & Hrun).
  simpl in Hfirst. injection Hfirst as <-. exists parts, indices. exact Hrun.
Defined.

(** X9. When the execution service raises (after the audit entry, if
    entries are saved, was created), run_code raises the same exception:
    the learner, the saved rows and the logs are as before, and only the
    collaborators' state has moved; the entry's output is never written. *)
Theorem run_code_execution_failure `{Catalog} `{Collaborators}
    (code source : pyval) (page_index step_index : Z)
    (s step_name : string) (page : Page) (e : exn) (x1 : Ext) (w : World) :
  list_getitem_int page_slugs_list page_index = Return s ->
  dict_getitem pages s = Return page ->
  list_getitem_int (step_names page) step_index = Return step_name ->
  (if SAVE_CODE_ENTRIES
   then exists id xa,
          CodeEntry_create (submission_entry code source s step_name w) (ext w) =
          (Return id, xa) /\
          worker_result (submission_entry code source s step_name w) xa = (Raise e, x1)
   else worker_result (submission_entry code source s step_name w) (ext w) = (Raise e, x1)) ->
  run_code code source (PInt page_index) (PInt step_index) w = (Raise e, with_ext w x1).
Proof.
  intros Hs Hpage Hstep Hfail. unfold submission_entry in Hfail.
  unfold run_code, bind, lift, list_getitem. simpl.
  rewrite Hs, Hpage, Hstep.
  destruct SAVE_CODE_ENTRIES.
  - destruct Hfail as (id & xa & Hc & Hw).
    unfold call_ext, ret. simpl. rewrite Hc. simpl. rewrite Hw. reflexivity.
  - unfold call_ext, ret. simpl. rewrite Hfail. reflexivity.
Qed.

Lemma run_code_execution_failure_witness :
  @run_code demo_catalog down_collaborators (PStr "1/0") (PStr "shell") (PInt 0) (PInt 0)
    down_world =
  (Raise (Failure "execution service down"), with_ext down_world 1%nat).
Proof.
  apply (@run_code_execution_failure demo_catalog down_collaborators
           (PStr "1/0") (PStr "shell") 0 0 "intro" "welcome" intro_page
           (Failure "execution service down") 1%nat down_world eq_refl eq_refl eq_refl).
  reflexivity.
Defined.

(** ** More on the puzzle generator *)

(** X10. Whatever its arguments and whether it returns or raises,
    get_solution changes neither the learner nor the saved rows nor the
    logs: the only state it can move is the collaborators' (the random
    generator). *)
Theorem get_solution_keeps_learner `{Catalog} `{Collaborators}
    (page_index step_index : pyval) (w : World) :
  user (snd (get_solution page_index step_index w)) = user w /\
  users_table (snd (get_solution page_index step_index w)) = users_table w /\
  sentry (snd (get_solution page_index step_index w)) = sentry w /\
  warnings (snd (get_solution page_index step_index w)) = warnings w.
Proof.
  unfold get_solution, bind, lift.
  destruct (list_getitem page_slugs_list page_index) as [s|]; [| repeat split].
  destruct (dict_getitem pages s) as [page|]; [| repeat split].
  destruct (list_getitem (step_names page) step_index) as [name|]; [| repeat split].
  destruct (getattr_step page name) as [step|]; [| repeat split].
  destruct (tokenize _) as [tokens|]; [| repeat split].
  destruct (mask_loop 0 tokens [] (replicate (length tokens) false)) as [mi mask].
  unfold shuffle, call_ext, ret.
  destruct (shuffle_from (length mi - 1) mi (ext w)) as [y g']. repeat split.
Qed.

(** X11. An empty token (the tokenizer emits one for the end of a last
    line without newline) is not whitespace for str.isspace, so
    get_solution masks it: its index is among the masked indices and its
    mask entry is true. *)
Theorem get_solution_masks_empty_token `{Catalog} `{Collaborators}
    (page_index step_index : Z) (s step_name : string) (page : Page) (step : Step)
    (tokens : list string) (i : nat) (w : World) :
  list_getitem_int page_slugs_list page_index = Return s ->
  dict_getitem pages s = Return page ->
  list_getitem_int (step_names page) step_index = Return step_name ->
  getattr_step page step_name = Return step ->
  tokenize (step_program step) = Return tokens ->
  tokens !! i = Some "" ->
  exists (masked : list nat) (mask : list bool) (w' : World),
    get_solution (PInt page_index) (PInt step_index) w =
    (Return (puzzle_dict tokens masked mask), w') /\
    i ∈ masked /\
    mask !! i = Some true.
Proof.
  intros Hs Hpage Hstep Hattr Htok Hi.
  destruct (get_solution_returns page_index step_index s step_name page step tokens w
              Hs Hpage Hstep Hattr Htok) as (masked & mask & w' & Hrun & Hperm & Hmask).
  assert (Hm : maskable tokens i = true) by (unfold maskable; rewrite Hi; reflexivity).
  exists masked, mask, w'. split; [exact Hrun |]. split.
  - rewrite Hperm. apply elem_of_eligible. exact Hm.
  - rewrite Hmask, Hm. reflexivity.
Qed.

Lemma get_solution_masks_empty_token_witness :
  exists (masked : list nat) (mask : list bool) (w' : @World (demo_collaborators passed_result)),
    @get_solution demo_catalog (demo_collaborators passed_result) (PInt 0) (PInt 0)
      (demo_world passed_result ∅) =
    (Return (puzzle_dict ["print"; "("; "'hi'"; ")"; ""] masked mask), w') /\
    4%nat ∈ masked.
Proof.
  destruct (@get_solution_masks_empty_token demo_catalog (demo_collaborators passed_result)
              0 0 "intro" "welcome" intro_page (PlainStep "print('hi')")
              ["print"; "("; "'hi'"; ")"; ""] 4%nat (demo_world passed_result ∅)
              eq_refl eq_refl eq_refl eq_refl eq_refl eq_refl)
    as (masked & mask & w' & Hrun & Hin & _).
  exists masked, mask, w'. split; [exact Hrun | exact Hin].
Defined.

(** ** More on the dispatch boundary *)

Lemma dict_getitem_absent {A : Type} (d : list (string * A)) (k : string) :
  k ∉ map fst d -> dict_getitem d k = Raise (KeyError k).
Proof.
  induction d as [|[k' v] d IH]; intros Hk; [reflexivity |].
  simpl in *. apply not_elem_of_cons in Hk as [Hne Hk].
  destruct (String.eqb k' k) eqn:E; [apply String.eqb_eq in E; congruence |].
  apply IH, Hk.
Qed.

(** X12. The type-hint loop of api_view only logs: for a JSON object that
    has every hinted argument it never raises, whatever the types of the
    values, and changes nothing but the warnings, to which it appends, in
    order, the hinted names whose value is no instance of the hint. *)
Theorem check_hints_only_logs `{Collaborators}
    (hints : list (string * hint)) (d : list (string * pyval)) (w : World) :
  (forall name h, (name, h) ∈ hints -> exists v, dict_getitem d name = Return v) ->
  exists w' : World,
    check_hints hints (PDict d) w = (Return tt, w') /\
    warnings w' = (warnings w ++ mismatched d hints)%list /\
    user w' = user w /\ users_table w' = users_table w /\
    sentry w' = sentry w /\ ext w' = ext w.
Proof.
  revert w. induction hints as [|[name h] hints IH]; intros w Hd.
  - exists w. simpl. rewrite app_nil_r. repeat split.
  - destruct (Hd name h) as [v Hv]; [apply elem_of_cons; left; reflexivity |].
    assert (Hd' : forall n h', (n, h') ∈ hints -> exists v', dict_getitem d n = Return v').
    { intros n h' Hin. apply (Hd n h'). apply elem_of_cons. right. exact Hin. }
    simpl. unfold bind at 1. unfold lift, subscript_str. rewrite Hv.
    destruct (isinstance v h) eqn:Hi.
    + unfold bind at 1. unfold ret at 1. apply IH, Hd'.
    + unfold bind at 1. unfold log_warning.
      destruct (IH {| user := user w; users_table := users_table w; sentry := sentry w;
                      warnings := (warnings w ++ [name])%list; ext := ext w |} Hd')
        as (w' & Hrun & Hw & Hu & Ht & Hs & Hx).
      exists w'. split; [exact Hrun |]. simpl in Hw, Hu, Ht, Hs, Hx.
      rewrite Hw, <- app_assoc. repeat split; assumption.
Qed.

Lemma check_hints_only_logs_witness :
  exists w' : @World (demo_collaborators passed_result),
    @check_hints (demo_collaborators passed_result) (type_hints m_move_step)
      (PDict [("page_index", PInt 0); ("step_index", PStr "1")])
      (demo_world passed_result ∅) = (Return tt, w') /\
    warnings w' = ["step_index"].
Proof.
  destruct (@check_hints_only_logs (demo_collaborators passed_result) (type_hints m_move_step)
              [("page_index", PInt 0); ("step_index", PStr "1")]
              (demo_world passed_result ∅))
    as (w' & Hrun & Hw & _).
  - intros name h Hin. simpl in Hin. apply list_elem_of_singleton in Hin.
    injection Hin as -> ->. exists (PStr "1"). reflexivity.
  - exists w'. split; [exact Hrun | exact Hw].
Defined.

(** X13. A method name that is no attribute of the instance of API (none
    of the names defined by the class, not __class__, request or user, and
    no attribute inherited from object) is answered by
    {error: {traceback}} for the AttributeError of the lookup: the body is
    not decoded, nothing is called, and nothing changes but the report to
    the error tracker. *)
Theorem api_view_unknown_method `{Catalog} `{Collaborators}
    (request_body : list N) (method_name : string) (w : World) :
  method_name ∉ ["run_code"; "load_data"; "set_developer_mode"; "current_state";
                 "move_step"; "set_page"; "get_solution"; "submit_feedback";
                 "__init__"; "__class__"; "request"; "user"] ->
  method_name ∉ object_attributes ->
  exists w' : World,
    api_view request_body method_name w =
    (Return (error_dict (AttributeError method_name)), w') /\
    sentry w' = (sentry w ++ [AttributeError method_name])%list /\
    user w' = user w /\ users_table w' = users_table w /\
    warnings w' = warnings w /\ ext w' = ext w.
Proof.
  intros Hname Hobj.
  assert (Hg : getattr_API method_name = Raise (AttributeError method_name)).
  { assert (Hne : forall n,
               n ∈ ["run_code"; "load_data"; "set_developer_mode"; "current_state";
                    "move_step"; "set_page"; "get_solution"; "submit_feedback";
                    "__init__"; "__class__"; "request"; "user"] ->
               String.eqb method_name n = false).
    { intros n Hn. apply String.eqb_neq. intros ->. contradiction. }
    assert (Hex : existsb (String.eqb method_name) object_attributes = false).
    { destruct (existsb (String.eqb method_name) object_attributes) eqn:E; [| reflexivity].
      apply existsb_exists in E as (n & Hn & Heq). apply String.eqb_eq in Heq. subst n.
      apply list_elem_of_In in Hn. contradiction. }
    unfold getattr_API. rewrite !Hne by set_solver. rewrite Hex. reflexivity. }
  assert (Hd : dispatch request_body method_name w = (Raise (AttributeError method_name), w)).
  { unfold dispatch, bind, lift. rewrite Hg. reflexivity. }
  rewrite (api_view_reports _ _ _ _ _ Hd).
  eexists. split; [reflexivity |]. repeat split.
Qed.

Lemma api_view_unknown_method_witness :
  exists w' : @World (demo_collaborators passed_result),
    @api_view demo_catalog (demo_collaborators passed_result) [] "reset_progress"
      (demo_world passed_result ∅) =
    (Return (@error_dict (demo_collaborators passed_result) (AttributeError "reset_progress")),
     w') /\
    user w' = Learner (demo_user ∅).
Proof.
  destruct (@api_view_unknown_method demo_catalog (demo_collaborators passed_result) []
              "reset_progress" (demo_world passed_result ∅))
    as (w' & Hrun & _ & Hu & _).
  - intros Hin. repeat (apply elem_of_cons in Hin as [Hin|Hin]; [discriminate |]).
    inversion Hin.
  - intros Hin. simpl in Hin.
    repeat (apply elem_of_cons in Hin as [Hin|Hin]; [discriminate |]).
    inversion Hin.
  - exists w'. split; [exact Hrun | exact Hu].
Defined.

(** X14. For a method with a type hint (move_step, get_solution,
    set_developer_mode), a JSON object without the hinted argument is
    answered by {error: {traceback}} for the KeyError of the hint loop:
    the method is not called and nothing changes but the report to the
    error tracker. *)
Theorem api_view_missing_hinted_argument `{Catalog} `{Collaborators}
    (request_body : list N) (method_name text name : string) (m : method) (h : hint)
    (rest : list (string * hint)) (d : list (string * pyval)) (w : World) :
  getattr_API method_name = Return (attr_method m) ->
  type_hints m = (name, h) :: rest ->
  body_decode request_body = Return text ->
  json_loads text = Return (PDict d) ->
  name ∉ map fst d ->
  exists w' : World,
    api_view request_body method_name w = (Return (error_dict (KeyError name)), w') /\
    sentry w' = (sentry w ++ [KeyError name])%list /\
    user w' = user w /\ users_table w' = users_table w /\
    warnings w' = warnings w /\ ext w' = ext w.
Proof.
  intros Hg Hh Hb Hj Hname.
  assert (Hd : dispatch request_body method_name w = (Raise (KeyError name), w)).
  { unfold dispatch, bind, lift. rewrite Hg, Hb, Hj. unfold call_attribute. rewrite Hh.
    simpl. unfold bind, lift, subscript_str. rewrite (dict_getitem_absent d name Hname).
    reflexivity. }
  rewrite (api_view_reports _ _ _ _ _ Hd).
  eexists. split; [reflexivity |]. repeat split.
Qed.

Lemma api_view_missing_hinted_argument_witness :
  exists w' : @World (request_collaborators (PDict [("page_index", PInt 0)])),
    @api_view demo_catalog (request_collaborators (PDict [("page_index", PInt 0)])) []
      "move_step" (request_world (PDict [("page_index", PInt 0)])) =
    (Return (@error_dict (request_collaborators (PDict [("page_index", PInt 0)]))
               (KeyError "step_index")), w') /\
    user w' = Learner (demo_user ∅).
Proof.
  destruct (@api_view_missing_hinted_argument demo_catalog
              (request_collaborators (PDict [("page_index", PInt 0)])) []
              "move_step" "" "step_index" m_move_step hint_int []
              [("page_index", PInt 0)] (request_world (PDict [("page_index", PInt 0)]))
              eq_refl eq_refl eq_refl eq_refl)
    as (w' & Hrun & _ & Hu & _).
  - simpl. intros Hin. apply list_elem_of_singleton in Hin. discriminate.
  - exists w'. split; [exact Hrun | exact Hu].
Defined.

(** X15. When the request body decodes to JSON that is not an object
    (null, a boolean, a number, a string, a list), every method of the API
    is answered by {error: {traceback}} for a TypeError: the method is not
    called and nothing changes but the report to the error tracker. *)
Theorem api_view_body_not_an_object `{Catalog} `{Collaborators}
    (request_body : list N) (method_name text : string) (m : method) (args : pyval)
    (w : World) :
  getattr_API method_name = Return (attr_method m) ->
  body_decode request_body = Return text ->
  json_loads text = Return args ->
  is_dict args = false ->
  exists w' : World,
    api_view request_body method_name w = (Return (error_dict TypeError), w') /\
    sentry w' = (sentry w ++ [TypeError])%list /\
    user w' = user w /\ users_table w' = users_table w /\
    warnings w' = warnings w /\ ext w' = ext w.
Proof.
  intros Hg Hb Hj Hd.
  assert (Hdis : dispatch request_body method_name w = (Raise TypeError, w)).
  { unfold dispatch, bind, lift. rewrite Hg, Hb, Hj.
    destruct args; try discriminate; destruct m; reflexivity. }
  rewrite (api_view_reports _ _ _ _ _ Hdis).
  eexists. split; [reflexivity |]. repeat split.
Qed.

Lemma api_view_body_not_an_object_witness :
  exists w' : @World down_collaborators,
    @api_view demo_catalog down_collaborators [] "run_code" down_world =
    (Return (@error_dict down_collaborators TypeError), w') /\
    ext w' = 0%nat.
Proof.
  destruct (@api_view_body_not_an_object demo_catalog down_collaborators []
              "run_code" "" m_run_code (PList []) down_world
              eq_refl eq_refl eq_refl eq_refl)
    as (w' & Hrun & _ & _ & _ & _ & Hx).
  exists w'. split; [exact Hrun | exact Hx].
Defined.

(** X16. set_developer_mode called through api_view with the object
    {"value": b}, b a boolean, for a learner: the answer is
    {"result": None} (a result that is no dict is wrapped), the learner's
    developer_mode becomes b in memory and in the saved row, the progress
    and the page are untouched, and nothing is logged or reported. *)
Theorem api_view_set_developer_mode `{Catalog} `{Collaborators}
    (request_body : list N) (text : string) (b : bool) (u : User) (w : World) :
  body_decode request_body = Return text ->
  json_loads text = Return (PDict [("value", PBool b)]) ->
  user w = Learner u ->
  exists (w' : World) (u' : User),
    api_view request_body "set_developer_mode" w =
    (Return (PDict [("result", PNone)]), w') /\
    user w' = Learner u' /\
    users_table w' !! uid u = Some u' /\
    developer_mode u' = PBool b /\
    pages_progress u' = pages_progress u /\
    page_slug u' = page_slug u /\
    warnings w' = warnings w /\
    sentry w' = sentry w.
Proof.
  intros Hb Hj Hu.
  unfold api_view, try_except, dispatch, bind, lift. simpl. rewrite Hb, Hj. simpl.
  unfold bind, lift. simpl.
  unfold call_method, set_developer_mode, bind, lift, update_user, set_user,
    user_save, ret; simpl.
  rewrite Hu; simpl.
  eexists _, _; split; [reflexivity |]; simpl.
  split; [reflexivity |]; split; [apply lookup_insert_eq |]. repeat split.
Qed.

Lemma api_view_set_developer_mode_witness :
  exists (w' : @World (request_collaborators (PDict [("value", PBool true)]))) (u' : User),
    @api_view demo_catalog (request_collaborators (PDict [("value", PBool true)])) []
      "set_developer_mode" (request_world (PDict [("value", PBool true)])) =
    (Return (PDict [("result", PNone)]), w') /\
    user w' = Learner u' /\
    developer_mode u' = PBool true /\
    warnings w' = [].
Proof.
  destruct (@api_view_set_developer_mode demo_catalog
              (request_collaborators (PDict [("value", PBool true)])) [] "" true
              (demo_user ∅) (request_world (PDict [("value", PBool true)]))
              eq_refl eq_refl eq_refl)
    as (w' & u' & Hrun & Hu & _ & Hv & _ & _ & Hw & _).
  exists w', u'. repeat split; assumption.
Defined.

Lemma lookup_all_missing (d : list (string * pyval)) (params : list string) (p : string) :
  p ∈ params -> p ∉ map fst d -> lookup_all d params = Raise TypeError.
Proof.
  intros Hin Hp. induction params as [|n params IH]; [inversion Hin |].
  simpl. apply elem_of_cons in Hin as [<- | Hin].
  - rewrite (dict_getitem_absent d p Hp). reflexivity.
  - rewrite (IH Hin). destruct (dict_getitem d n); reflexivity.
Qed.

(** A keyword that is no parameter, or a parameter without a keyword:
    the arguments do not bind. *)
Lemma bind_args_mismatch (params : list string) (d : list (string * pyval)) :
  (exists k, k ∈ map fst d /\ k ∉ params) \/ (exists p, p ∈ params /\ p ∉ map fst d) ->
  bind_args params (PDict d) = Raise TypeError.
Proof.
  intros Hbad. unfold bind_args.
  destruct (forallb (fun k => existsb (String.eqb k) params) (map fst d)) eqn:Hf;
    [| reflexivity].
  destruct Hbad as [(k & Hk & Hnot) | (p & Hp & Hnot)].
  - rewrite forallb_forall in Hf. apply list_elem_of_In in Hk.
    specialize (Hf k Hk). apply existsb_exists in Hf as (q & Hq & Heq).
    apply String.eqb_eq in Heq. subst q. apply list_elem_of_In in Hq. contradiction.
  - apply (lookup_all_missing d params p Hp Hnot).
Qed.

(** The type-hint loop on an object that has every hinted argument. *)
Lemma check_hints_present `{Collaborators}
    (hints : list (string * hint)) (d : list (string * pyval)) (w : World) :
  (forall name h, (name, h) ∈ hints -> exists v, dict_getitem d name = Return v) ->
  check_hints hints (PDict d) w =
  (Return tt,
   {| user := user w; users_table := users_table w; sentry := sentry w;
      warnings := (warnings w ++ mismatched d hints)%list; ext := ext w |}).
Proof.
  revert w. induction hints as [|[name h] hints IH]; intros w Hd.
  - simpl. rewrite app_nil_r. destruct w; reflexivity.
  - destruct (Hd name h) as [v Hv]; [apply elem_of_cons; left; reflexivity |].
    assert (Hd' : forall n h', (n, h') ∈ hints -> exists v', dict_getitem d n = Return v').
    { intros n h' Hin. apply (Hd n h'). apply elem_of_cons. right. exact Hin. }
    simpl. unfold bind at 1. unfold lift, subscript_str. rewrite Hv.
    destruct (isinstance v h) eqn:Hi.
    + unfold bind at 1. unfold ret at 1. apply IH, Hd'.
    + unfold bind at 1. unfold log_warning. rewrite (IH _ Hd'). simpl.
      rewrite <- app_assoc. reflexivity.
Qed.

(** X17. For each operation of the API called through api_view with a
    JSON object that holds every hinted argument: when the object has a
    key that is no parameter of the method, or lacks a parameter, the
    method is not run.  The call fails to bind its keyword arguments, and
    the answer is {error: {traceback}} for a TypeError, reported to the
    error tracker; the learner, the saved rows and the collaborators are
    untouched, and only the mismatches of the type hints have been
    logged. *)
Theorem api_view_keywords_must_match `{Catalog} `{Collaborators}
    (request_body : list N) (method_name text : string) (m : method)
    (d : list (string * pyval)) (w : World) :
  getattr_API method_name = Return (attr_method m) ->
  body_decode request_body = Return text ->
  json_loads text = Return (PDict d) ->
  (forall name h, (name, h) ∈ type_hints m -> exists v, dict_getitem d name = Return v) ->
  (exists k, k ∈ map fst d /\ k ∉ parameters m) \/
  (exists p, p ∈ parameters m /\ p ∉ map fst d) ->
  exists w' : World,
    api_view request_body method_name w = (Return (error_dict TypeError), w') /\
    sentry w' = (sentry w ++ [TypeError])%list /\
    warnings w' = (warnings w ++ mismatched d (type_hints m))%list /\
    user w' = user w /\ users_table w' = users_table w /\ ext w' = ext w.
Proof.
  intros Hg Hb Hj Hhints Hbad.
  assert (Hd : dispatch request_body method_name w =
               (Raise TypeError,
                {| user := user w; users_table := users_table w; sentry := sentry w;
                   warnings := (warnings w ++ mismatched d (type_hints m))%list;
                   ext := ext w |})).
  { unfold dispatch, bind, lift. rewrite Hg, Hb, Hj.
    unfold call_attribute, bind. rewrite (check_hints_present _ d w Hhints).
    unfold call_method, bind, lift. rewrite (bind_args_mismatch _ d Hbad). reflexivity. }
  rewrite (api_view_reports _ _ _ _ _ Hd).
  eexists. split; [reflexivity |]. repeat split.
Qed.

Lemma api_view_keywords_must_match_witness :
  exists w' : @World (request_collaborators (PDict [("index", PInt 1); ("force", PBool true)])),
    @api_view demo_catalog
      (request_collaborators (PDict [("index", PInt 1); ("force", PBool true)])) []
      "set_page" (request_world (PDict [("index", PInt 1); ("force", PBool true)])) =
    (Return (@error_dict
               (request_collaborators (PDict [("index", PInt 1); ("force", PBool true)]))
               TypeError), w') /\
    user w' = Learner (demo_user ∅).
Proof.
  destruct (@api_view_keywords_must_match demo_catalog
              (request_collaborators (PDict [("index", PInt 1); ("force", PBool true)])) []
              "set_page" "" m_set_page [("index", PInt 1); ("force", PBool true)]
              (request_world (PDict [("index", PInt 1); ("force", PBool true)]))
              eq_refl eq_refl eq_refl)
    as (w' & Hrun & _ & _ & Hu & _).
  - intros name h Hin. inversion Hin.
  - left. exists "force". split.
    + simpl. apply elem_of_cons. right. apply elem_of_cons. left. reflexivity.
    + simpl. intros Hin. apply list_elem_of_singleton in Hin. discriminate.
  - exists w'. split; [exact Hrun | exact Hu].
Defined.

(** X18. load_data only reads: whether the visitor is anonymous (the
    answer is the empty dict) or a learner, and whether it returns or
    raises, the state of the request is left exactly as it was. *)
Theorem load_data_reads_only `{Catalog} `{Collaborators} (w : World) :
  snd (load_data w) = w /\
  (user w = AnonymousUser -> load_data w = (Return (PDict []), w)).
Proof.
  unfold load_data. destruct (user w) as [|u] eqn:Hu.
  - split; [reflexivity | intros _; reflexivity].
  - split; [| discriminate].
    unfold bind.
    destruct (current_state w) as [[v|e] w1] eqn:Hcs;
      rewrite (current_state_result _ _ _ Hcs); [| reflexivity].
    unfold lift. destruct (dict_getitem pages (page_slug u)); reflexivity.
Qed.





(** ** The operations through the boundary *)

(** X21. For each of the eight operations of the API, api_view returns a
    dict and raises nothing, whatever the body and the state of the
    request.  An exception of the try block (decoding of the body, type
    hints, binding of the arguments, the operation itself, a collaborator)
    is reported to the error tracker and answered by
    {error: {traceback}}, the rest of the state being as the exception
    left it; a value returned by the operation is answered as it is when
    it is a dict, and as {"result": value} otherwise, with no report. *)
Theorem api_view_operations_always_answer `{Catalog} `{Collaborators}
    (request_body : list N) (method_name : string) (m : method) (w : World) :
  getattr_API method_name = Return (attr_method m) ->
  (exists (r : pyval) (w' : World),
     api_view request_body method_name w = (Return r, w') /\ is_dict r = true) /\
  (forall (e : exn) (w1 : World),
     dispatch request_body method_name w = (Raise e, w1) ->
     exists w' : World,
       api_view request_body method_name w = (Return (error_dict e), w') /\
       sentry w' = (sentry w1 ++ [e])%list /\
       user w' = user w1 /\ users_table w' = users_table w1 /\
       warnings w' = warnings w1 /\ ext w' = ext w1) /\
  (forall (r : list (string * pyobject)) (w1 : World),
     dispatch request_body method_name w = (Return r, w1) ->
     exists v : pyval,
       r = as_result_dict (JsonValue v) /\
       api_view request_body method_name w =
       (Return (if is_dict v then v else PDict [("result", v)]), w1)).
Proof.
  intros Hg.
  assert (Hret : forall r w1,
             dispatch request_body method_name w = (Return r, w1) ->
             exists v : pyval,
               r = as_result_dict (JsonValue v) /\
               api_view request_body method_name w =
               (Return (if is_dict v then v else PDict [("result", v)]), w1)).
  { intros r w1 Hd.
    destruct (dispatch_method request_body method_name m w w1 r Hg Hd) as [v ->].
    exists v. split; [reflexivity |].
    unfold api_view, bind, try_except. rewrite Hd. unfold lift.
    rewrite JsonResponse_JsonValue. reflexivity. }
  split; [| split; [| exact Hret]].
  - destruct (dispatch request_body method_name w) as [[r|e] w1] eqn:Hd.
    + destruct (Hret r w1 eq_refl) as (v & _ & Hrun).
      eexists _, _. split; [exact Hrun |]. destruct (is_dict v) eqn:E; [exact E | reflexivity].
    + rewrite (api_view_reports _ _ _ _ _ Hd). eexists _, _. split; reflexivity.
  - intros e w1 Hd. rewrite (api_view_reports _ _ _ _ _ Hd).
    eexists. split; [reflexivity |]. repeat split.
Qed.

Lemma api_view_operations_always_answer_witness :
  exists (r : pyval) (w' : @World (demo_collaborators passed_result)),
    @api_view demo_catalog (demo_collaborators passed_result) [] "set_page"
      (demo_world passed_result ∅) = (Return r, w') /\
    is_dict r = true.
Proof.
  destruct (@api_view_operations_always_answer demo_catalog (demo_collaborators passed_result)
              [] "set_page" m_set_page (demo_world passed_result ∅) eq_refl)
    as [Hret _].
  exact Hret.
Defined.
